(** * seal.components.base: the component hierarchy

    A model of [seal/components/base.py].  The file declares five classes
    ([Component], [ExperimentComponent], [RunComponent], [HybridComponent],
    [Logger]) whose only executable code is four [__call__] methods; all the
    rest is [@abstractmethod] stubs whose body is [pass].

    The methods are embedded as programs of a small monad [py] whose two
    effects are the ones the source performs: [isinstance(x, C)] and the
    virtual call [self.m(args)].  What these effects mean is given by a class
    table (method resolution along the MRO, as Python does it) and by the
    implementations the subclasses bring, which are Python code this file
    knows nothing about: they are taken as arbitrary functions on an
    arbitrary [world]. *)

From stdpp Require Import base option list strings gmap.

Local Open Scope string_scope.
Local Open Scope list_scope.

(** ** Values *)

Definition ident := string.

(** A Python object is known by its class and its address; [None] and the
    integers stand for the built-in values. *)
Inductive pyobj : Type :=
| PyNone
| PyInt (n : Z)
| PyObject (cls : ident) (addr : nat).

Definition type_of (x : pyobj) : ident :=
  match x with
  | PyNone => "NoneType"
  | PyInt _ => "int"
  | PyObject cls _ => cls
  end.

(** The arguments of a call: positional ones and [**kwargs]. *)
Record arguments : Type := Args {
  positional : list pyobj;
  keywords : list (ident * pyobj)
}.

Definition no_args : arguments := Args [] [].
Definition one_arg (x : pyobj) : arguments := Args [x] [].

Inductive exn : Type :=
| TypeError (msg : string)
| AttributeError (msg : string)
| NameError (msg : string)
| Exception (payload : pyobj).

Inductive outcome (A : Type) : Type :=
| Returned (a : A)
| Raised (e : exn)
| OutOfFuel.
Arguments Returned {A} a.
Arguments Raised {A} e.
Arguments OutOfFuel {A}.

(** ** Programs *)

(** The code of a method of base.py.  [Invoke self m args k] is the virtual
    call [self.m(args)] followed by [k] on its result; [IsInstance x C k] is
    [isinstance(x, C)]. *)
Inductive py (A : Type) : Type :=
| Ret (a : A)
| Raise (e : exn)
| IsInstance (x : pyobj) (cls : ident) (k : bool -> py A)
| Invoke (self : pyobj) (meth : ident) (args : arguments) (k : pyobj -> py A).
Arguments Ret {A} a.
Arguments Raise {A} e.
Arguments IsInstance {A} x cls k.
Arguments Invoke {A} self meth args k.

Fixpoint bind {A B : Type} (c : py A) (k : A -> py B) : py B :=
  match c with
  | Ret a => k a
  | Raise e => Raise e
  | IsInstance x cls k' => IsInstance x cls (fun b => bind (k' b) k)
  | Invoke self meth args k' => Invoke self meth args (fun v => bind (k' v) k)
  end.

Declare Scope py_scope.
Delimit Scope py_scope with py.
Notation "'let*' x ':=' c 'in' k" := (bind c (fun x => k))
  (at level 10, x name, c at level 100, k at level 200) : py_scope.
Local Open Scope py_scope.

Definition isinstance (x : pyobj) (cls : ident) : py bool := IsInstance x cls Ret.
Definition call (self : pyobj) (meth : ident) (args : arguments) : py pyobj :=
  Invoke self meth args Ret.

(** ** Functions and classes *)

(** A function found in a class either has its code at hand ([Source]: the
    functions of base.py, with the mark [@abstractmethod] leaves on them,
    and a method a class statement spells out) or is code of a subclass this
    file knows nothing about ([Foreign]): that one is opaque, and is given
    by what it does to the world. *)
Inductive pyfunction (world : Type) : Type :=
| Source (abstract : bool) (code : pyobj -> arguments -> py pyobj)
| Foreign (impl : pyobj -> arguments -> world -> outcome pyobj * world).
Arguments Source {world} abstract code.
Arguments Foreign {world} impl.

(** [getattr(f, "__isabstractmethod__", False)] *)
Definition isabstractmethod {world} (f : pyfunction world) : bool :=
  match f with
  | Source abstract _ => abstract
  | Foreign _ => false
  end.

(** A class statement: [class name(bases, metaclass=ABCMeta): body]. *)
Record classdef (world : Type) : Type := ClassDef {
  cd_name : ident;
  cd_bases : list ident;
  cd_abcmeta : bool;
  cd_body : list (ident * pyfunction world)
}.
Arguments ClassDef {world} _ _ _ _.
Arguments cd_name {world} _.
Arguments cd_bases {world} _.
Arguments cd_abcmeta {world} _.
Arguments cd_body {world} _.

(** A class object. *)
Record pyclass (world : Type) : Type := PyClass {
  cls_bases : list ident;
  cls_abcmeta : bool;
  cls_mro : list ident;
  cls_dict : gmap ident (pyfunction world);
  cls_abstractmethods : gset ident
}.
Arguments PyClass {world} _ _ _ _ _.
Arguments cls_bases {world} _.
Arguments cls_abcmeta {world} _.
Arguments cls_mro {world} _.
Arguments cls_dict {world} _.
Arguments cls_abstractmethods {world} _.

(** The classes that exist, by name. *)
Abbreviation class_table world := (gmap ident (pyclass world)).

Section Classes.
Context {world : Type}.
Implicit Types (ct : class_table world) (f : pyfunction world).

(** A class that is not in the table is a built-in one, whose only base
    is [object]. *)
Definition mro_of ct (c : ident) : list ident :=
  match ct !! c with
  | Some k => cls_mro k
  | None => [c; "object"]
  end.

Definition abstractmethods_of ct (c : ident) : gset ident :=
  match ct !! c with
  | Some k => cls_abstractmethods k
  | None => ∅
  end.

Definition dict_lookup ct (c m : ident) : option (pyfunction world) :=
  ct !! c ≫= fun k => cls_dict k !! m.

(** Attribute lookup on a class: the first class of the MRO that has the
    name in its dictionary. *)
Fixpoint mro_lookup ct (mro : list ident) (m : ident) : option (pyfunction world) :=
  match mro with
  | [] => None
  | c :: rest =>
      match dict_lookup ct c m with
      | Some f => Some f
      | None => mro_lookup ct rest m
      end
  end.

Definition getattr ct (c m : ident) : option (pyfunction world) :=
  mro_lookup ct (mro_of ct c) m.

(** [issubclass(c, d)] for ordinary classes. *)
Definition issubclass ct (c d : ident) : bool := bool_decide (d ∈ mro_of ct c).

Definition is_instance ct (x : pyobj) (c : ident) : bool :=
  issubclass ct (type_of x) c.

(** *** The C3 linearisation *)

Definition in_tail (c : ident) (s : list ident) : bool := bool_decide (c ∈ tail s).

Definition c3_good (seqs : list (list ident)) (c : ident) : bool :=
  forallb (fun s => negb (in_tail c s)) seqs.

Definition c3_heads (seqs : list (list ident)) : list ident :=
  omap head seqs.

Definition c3_drop (c : ident) (s : list ident) : list ident :=
  match s with
  | x :: t => if decide (x = c) then t else s
  | [] => []
  end.

Definition nonempty (s : list ident) : bool :=
  match s with [] => false | _ => true end.

Fixpoint c3_merge (fuel : nat) (seqs : list (list ident)) : option (list ident) :=
  match fuel with
  | O => None
  | S fuel' =>
      match List.filter nonempty seqs with
      | [] => Some []
      | live =>
          match List.find (c3_good live) (c3_heads live) with
          | None => None
          | Some c => cons c <$> c3_merge fuel' (c3_drop c <$> live)
          end
      end
  end.

Definition c3_size (seqs : list (list ident)) : nat :=
  foldr (fun s n => length s + n) 0 seqs.

(** Each round takes a class away, so this many rounds are enough. *)
Definition c3_fuel (seqs : list (list ident)) : nat := S (c3_size seqs).

Definition linearise ct (name : ident) (bases : list ident) : option (list ident) :=
  let seqs := (mro_of ct <$> bases) ++ [bases] in
  cons name <$> c3_merge (c3_fuel seqs) seqs.

(** *** Class creation *)

(** The dictionary a class body leaves: a later [def] of a name replaces
    an earlier one. *)
Definition namespace (body : list (ident * pyfunction world)) : gmap ident (pyfunction world) :=
  foldl (fun d b => <[b.1 := b.2]> d) ∅ body.

Definition abstract_names (d : gmap ident (pyfunction world)) : gset ident :=
  dom (filter (fun b => isabstractmethod b.2 = true) d).

Definition still_abstract ct (c m : ident) : bool :=
  match getattr ct c m with
  | Some f => isabstractmethod f
  | None => false
  end.

(** [ABCMeta.__new__]: the abstract names of the body, and those of each
    base that still resolve to an abstract function in the new class. *)
Definition abc_abstracts ct (name : ident) (bases : list ident)
    (d : gmap ident (pyfunction world)) : gset ident :=
  abstract_names d ∪
  ⋃ ((fun b => filter (fun m => still_abstract ct name m = true) (abstractmethods_of ct b))
       <$> bases).

Definition effective_bases (bases : list ident) : list ident :=
  match bases with [] => ["object"] | _ => bases end.

(** The metaclass is [ABCMeta] when the statement says so or a base has it. *)
Definition derived_abcmeta ct (declared : bool) (bases : list ident) : bool :=
  declared || existsb (fun b => from_option cls_abcmeta false (ct !! b)) bases.

(** The class object a statement makes, once its MRO is known. *)
Definition new_class ct (cd : classdef world) (mro : list ident) : pyclass world :=
  let bases := effective_bases (cd_bases cd) in
  let abc := derived_abcmeta ct (cd_abcmeta cd) bases in
  let d := namespace (cd_body cd) in
  let ct0 := <[cd_name cd := PyClass bases abc mro d ∅]> ct in
  PyClass bases abc mro d
    (if abc then abc_abstracts ct0 (cd_name cd) bases d else ∅).

(** Executing a class statement.  A base that does not exist is a
    [NameError]; bases that cannot be linearised are a [TypeError].  Classes
    are known by name here, so a name already taken is refused too. *)
Definition class_stmt ct (cd : classdef world) : exn + class_table world :=
  let bases := effective_bases (cd_bases cd) in
  match ct !! cd_name cd with
  | Some _ => inl (NameError (cd_name cd))
  | None =>
      match List.find (fun b => bool_decide (ct !! b = None)) bases with
      | Some b => inl (NameError b)
      | None =>
          match linearise ct (cd_name cd) bases with
          | None => inl (TypeError "Cannot create a consistent method resolution order (MRO)")
          | Some mro => inr (<[cd_name cd := new_class ct cd mro]> ct)
          end
      end
  end.

(** A module: its class statements in order; the first error stops it. *)
Fixpoint exec_module ct (cds : list (classdef world)) : exn + class_table world :=
  match cds with
  | [] => inr ct
  | cd :: rest =>
      match class_stmt ct cd with
      | inl e => inl e
      | inr ct' => exec_module ct' rest
      end
  end.
End Classes.

(** ** Running programs *)

(** What the interpreter records of a virtual call made by the code of
    base.py: the receiver, the method name and the arguments. *)
Record event : Type := Called {
  ev_self : pyobj;
  ev_meth : ident;
  ev_args : arguments
}.

(** The state a run goes through: the [world] the foreign code works on
    (attributes of the objects, files, connections), the calls made so
    far, oldest first, and the next free address. *)
Record state (world : Type) : Type := State {
  st_world : world;
  st_trace : list event;
  st_next : nat
}.
Arguments State {world} _ _ _.
Arguments st_world {world} _.
Arguments st_trace {world} _.
Arguments st_next {world} _.

Definition set_world {world} (st : state world) (w : world) : state world :=
  State w (st_trace st) (st_next st).

Definition record_call {world} (st : state world) (ev : event) : state world :=
  State (st_world st) (st_trace st ++ [ev]) (st_next st).

Definition alloc {world} (st : state world) : state world :=
  State (st_world st) (st_trace st) (S (st_next st)).

Definition abstract_class_error : exn := TypeError "Can't instantiate abstract class".

(** [C() takes no arguments] *)
Definition no_arguments_error : exn := TypeError "takes no arguments".

(** [__init__() should return None] *)
Definition init_return_error : exn := TypeError "__init__() should return None".

(** The class of an MRO on which the lookup of [m] ends. *)
Fixpoint mro_definer {world} (ct : class_table world) (mro : list ident) (m : ident)
    : option ident :=
  match mro with
  | [] => None
  | c :: rest =>
      match dict_lookup ct c m with
      | Some _ => Some c
      | None => mro_definer ct rest m
      end
  end.

Definition definer {world} (ct : class_table world) (c m : ident) : option ident :=
  mro_definer ct (mro_of ct c) m.

(** A call that passes something: positional or keyword arguments. *)
Definition excess_args (args : arguments) : bool :=
  match args with
  | Args [] [] => false
  | _ => true
  end.

(** The built-in classes of the table that allocate their instances with a
    [__new__] of their own, which does not look at
    [__abstractmethods__].  A class keeps the [__new__] of such a base; all
    other classes have [object.__new__]. *)
Definition builtin_new : list ident := ["BaseException"].

Definition inherits_builtin_new {world} (ct : class_table world) (cls : ident) : bool :=
  existsb (fun c => bool_decide (c ∈ builtin_new)) (mro_of ct cls).

(** No class before [object] defines [__init__]. *)
Definition init_is_object_init {world} (ct : class_table world) (cls : ident) : bool :=
  bool_decide (definer ct cls "__init__" = Some "object").

Section Interpreter.
Context {world : Type}.
Variable ct : class_table world.

Definition callee : Type :=
  pyobj -> ident -> arguments -> state world -> outcome pyobj * state world.

(** A program runs until it returns or raises.  An exception out of a
    call ends the program there: base.py has no [try]. *)
Fixpoint run {A : Type} (callf : callee) (p : py A) (st : state world)
    : outcome A * state world :=
  match p with
  | Ret a => (Returned a, st)
  | Raise e => (Raised e, st)
  | IsInstance x c k => run callf (k (is_instance ct x c)) st
  | Invoke self m args k =>
      match callf self m args (record_call st (Called self m args)) with
      | (Returned v, st') => run callf (k v) st'
      | (Raised e, st') => (Raised e, st')
      | (OutOfFuel, st') => (OutOfFuel, st')
      end
  end.

(** [self.m(args)]: the function is looked up on the class of [self]. *)
Fixpoint call_method (fuel : nat) (self : pyobj) (m : ident) (args : arguments)
    (st : state world) : outcome pyobj * state world :=
  match fuel with
  | O => (OutOfFuel, st)
  | S fuel' =>
      match getattr ct (type_of self) m with
      | None => (Raised (AttributeError m), st)
      | Some (Foreign impl) =>
          let (r, w) := impl self args (st_world st) in (r, set_world st w)
      | Some (Source _ code) => run (call_method fuel') (code self args) st
      end
  end.

(** [self(args)], the "invoke" operation. *)
Definition invoke (fuel : nat) (self : pyobj) (args : arguments) (st : state world)
    : outcome pyobj * state world :=
  match getattr ct (type_of self) "__call__" with
  | None => (Raised (TypeError "object is not callable"), st)
  | Some _ => call_method fuel self "__call__" args st
  end.

(** The rest of [cls(args)] once [__new__] has made the object: it goes
    through [__init__], which has to return [None]. *)
Definition construct (fuel : nat) (cls : ident) (args : arguments) (st : state world)
    : outcome pyobj * state world :=
  let self := PyObject cls (st_next st) in
  match call_method fuel self "__init__" args (alloc st) with
  | (Returned PyNone, st') => (Returned self, st')
  | (Returned _, st') => (Raised init_return_error, st')
  | (Raised e, st') => (Raised e, st')
  | (OutOfFuel, st') => (OutOfFuel, st')
  end.

(** [cls(args)].  [object.__new__] first refuses arguments when the class
    has no [__init__] but the one of [object], then refuses a class whose
    [__abstractmethods__] is not empty; both before any method runs.  The
    [__new__] of a built-in base makes neither test.  A [__new__] written
    in a class body is code of a subclass that replaces all this: it is not
    modelled, and the statements on construction leave such classes out or
    are about classes of which the whole body is known. *)
Definition instantiate (fuel : nat) (cls : ident) (args : arguments) (st : state world)
    : outcome pyobj * state world :=
  match ct !! cls with
  | None => (Raised (NameError cls), st)
  | Some k =>
      if inherits_builtin_new ct cls then construct fuel cls args st
      else if excess_args args && init_is_object_init ct cls then
        (Raised no_arguments_error, st)
      else if decide (cls_abstractmethods k = ∅) then construct fuel cls args st
      else (Raised abstract_class_error, st)
  end.
End Interpreter.

(** ** Parameter binding *)

Definition arity_error : exn := TypeError "wrong arguments".

(** [def f(self)] *)
Definition def_self (body : pyobj -> py pyobj) (self : pyobj) (args : arguments) : py pyobj :=
  match args with
  | Args [] [] => body self
  | _ => Raise arity_error
  end.

(** [def f(self, name)]: the argument comes by position or by keyword. *)
Definition def_self_1 (name : ident) (body : pyobj -> pyobj -> py pyobj)
    (self : pyobj) (args : arguments) : py pyobj :=
  match args with
  | Args [x] [] => body self x
  | Args [] [(k, x)] => if String.eqb k name then body self x else Raise arity_error
  | _ => Raise arity_error
  end.

(** [def f(self, **kwargs)] *)
Definition def_self_kwargs (body : pyobj -> list (ident * pyobj) -> py pyobj)
    (self : pyobj) (args : arguments) : py pyobj :=
  match positional args with
  | [] => body self (keywords args)
  | _ => Raise arity_error
  end.

(** [@abstractmethod] *)
Definition abstractmethod {world} (code : pyobj -> arguments -> py pyobj) : pyfunction world :=
  Source true code.

Definition method {world} (code : pyobj -> arguments -> py pyobj) : pyfunction world :=
  Source false code.

(** [pass] as a whole body: the function returns [None]. *)
Definition pass : py pyobj := Ret PyNone.

(** ** base.py *)

(** [from seal.experiment import Experiment], [from seal.run import Run]:
    the two names base.py tests its arguments against. *)
Definition Experiment : ident := "Experiment".
Definition Run : ident := "Run".

Module Component.
Definition __call__ {world} : pyfunction world :=
  abstractmethod (def_self (fun self => pass)).

Definition decl {world} : classdef world :=
  ClassDef "Component" ["object"] true
    [("__call__", __call__)].
End Component.

Module ExperimentComponent.
Definition __call__ {world} : pyfunction world :=
  method (def_self_1 "object" (fun self object =>
    call self "_call_on_experiment" (one_arg object))).

Definition _call_on_experiment {world} : pyfunction world :=
  abstractmethod (def_self_1 "object" (fun self object => pass)).

Definition decl {world} : classdef world :=
  ClassDef "ExperimentComponent" ["Component"] false
    [("__call__", __call__); ("_call_on_experiment", _call_on_experiment)].
End ExperimentComponent.

Module RunComponent.
Definition __call__ {world} : pyfunction world :=
  method (def_self_1 "object" (fun self object =>
    call self "_call_on_run" (one_arg object))).

Definition _call_on_run {world} : pyfunction world :=
  abstractmethod (def_self_1 "object" (fun self object => pass)).

Definition decl {world} : classdef world :=
  ClassDef "RunComponent" ["Component"] false
    [("__call__", __call__); ("_call_on_run", _call_on_run)].
End RunComponent.

Module HybridComponent.
Definition __call__ {world} : pyfunction world :=
  method (def_self_1 "object" (fun self object =>
    let* is_experiment := isinstance object Experiment in
    if is_experiment then
      call self "_call_on_experiment" (one_arg object)
    else
      let* is_run := isinstance object Run in
      if is_run then
        call self "_call_on_run" (one_arg object)
      else
        Ret PyNone)).

Definition decl {world} : classdef world :=
  ClassDef "HybridComponent" ["ExperimentComponent"; "RunComponent"] false
    [("__call__", __call__)].
End HybridComponent.

Module Logger.
Definition __init__ {world} : pyfunction world :=
  abstractmethod (def_self_kwargs (fun self kwargs => pass)).

Definition __call__ {world} : pyfunction world :=
  method (def_self_1 "obj" (fun self obj =>
    let* is_experiment := isinstance obj Experiment in
    if is_experiment then
      let* _ := call self "log_experiment" (one_arg obj) in Ret PyNone
    else
      let* is_run := isinstance obj Run in
      if is_run then
        let* _ := call self "log_run" (one_arg obj) in Ret PyNone
      else
        Ret PyNone)).

Definition log_experiment {world} : pyfunction world :=
  abstractmethod (def_self_1 "experiment" (fun self experiment => pass)).

Definition log_run {world} : pyfunction world :=
  abstractmethod (def_self_1 "run" (fun self run => pass)).

Definition _log_metrics {world} : pyfunction world :=
  abstractmethod (def_self_kwargs (fun self kwargs => pass)).

Definition _log_params {world} : pyfunction world :=
  abstractmethod (def_self_kwargs (fun self kwargs => pass)).

Definition _log_model {world} : pyfunction world :=
  abstractmethod (def_self_kwargs (fun self kwargs => pass)).

Definition decl {world} : classdef world :=
  ClassDef "Logger" ["Component"] true
    [("__init__", __init__); ("__call__", __call__);
     ("log_experiment", log_experiment); ("log_run", log_run);
     ("_log_metrics", _log_metrics); ("_log_params", _log_params);
     ("_log_model", _log_model)].
End Logger.

(** The class statements of base.py, in the order of the file. *)
Definition base_py {world} : list (classdef world) :=
  [Component.decl; ExperimentComponent.decl; RunComponent.decl;
   HybridComponent.decl; Logger.decl].


(** ** Vocabulary of the statements *)

(** What a subclass brings for a method. *)
Abbreviation implementation world :=
  (pyobj -> arguments -> world -> outcome pyobj * world).

(** One call [self.m(args)] that ends in foreign code: the call is recorded,
    the implementation runs on the world, and nothing else happens. *)
Definition hook_call {world} (impl : implementation world)
    (self : pyobj) (m : ident) (args : arguments) (st : state world)
    : outcome pyobj * state world :=
  let (r, w) := impl self args (st_world st) in
  (r, State w (st_trace st ++ [Called self m args]) (st_next st)).

(** A statement [self.m(args)] whose value is dropped, at the end of a
    function: the function returns [None]. *)
Definition drop_value {world} (r : outcome pyobj * state world)
    : outcome pyobj * state world :=
  match r with
  | (Returned _, st) => (Returned PyNone, st)
  | other => other
  end.

(** The calls made between two states of one run. *)
Definition calls_since {world} (st st' : state world) : list event :=
  drop (length (st_trace st)) (st_trace st').

(** What class creation keeps true of a class table: the classes of an MRO
    exist; an MRO starts with its own class and holds no class twice; a
    class with an [ABCMeta] class in its MRO has that metaclass too; and a
    name whose lookup ends on an abstract function of an [ABCMeta] class is
    in [__abstractmethods__]. *)
Record well_formed {world} (ct : class_table world) : Prop := WellFormed {
  wf_closed : forall c k x,
    ct !! c = Some k -> x ∈ cls_mro k -> is_Some (ct !! x);
  wf_head : forall c k,
    ct !! c = Some k -> head (cls_mro k) = Some c;
  wf_nodup : forall c k,
    ct !! c = Some k -> NoDup (cls_mro k);
  wf_abc : forall c k d kd,
    ct !! c = Some k -> d ∈ cls_mro k -> ct !! d = Some kd ->
    cls_abcmeta kd = true -> cls_abcmeta k = true;
  wf_abstract : forall c k m d kd f,
    ct !! c = Some k -> mro_definer ct (cls_mro k) m = Some d ->
    ct !! d = Some kd -> cls_abcmeta kd = true ->
    cls_dict kd !! m = Some f -> isabstractmethod f = true ->
    m ∈ cls_abstractmethods k
}.



(** The four [__call__] base.py defines, with the class that defines each. *)
Definition call_methods_of_base_py {world} : list (ident * pyfunction world) :=
  [("ExperimentComponent", ExperimentComponent.__call__);
   ("RunComponent", RunComponent.__call__);
   ("HybridComponent", HybridComponent.__call__);
   ("Logger", Logger.__call__)].

(** A method that is [def m(self, x): pass] under some parameter name. *)
Definition is_noop_method {world} (f : pyfunction world) : Prop :=
  exists code, f = Source false code /\ forall self x, code self (one_arg x) = pass.

(** A method that is [def m(self, **kwargs): pass]. *)
Definition is_noop_kwargs {world} (f : pyfunction world) : Prop :=
  exists code, f = Source false code /\ forall self kwargs, code self (Args [] kwargs) = pass.

(** ** The classes around base.py *)

(** [object], the root of every class: its [__init__] takes no argument. *)
Definition object_class {world} : pyclass world :=
  PyClass [] false ["object"] {[ "__init__" := method (def_self (fun self => pass)) ]} ∅.

(** [BaseException.__init__(self, *args)]: any positional arguments, no
    keyword. *)
Definition base_exception_init (self : pyobj) (args : arguments) : py pyobj :=
  match keywords args with
  | [] => pass
  | _ => Raise (TypeError "takes no keyword arguments")
  end.

(** The exceptions stand for the built-in classes with a [__new__] of
    their own. *)
Definition base_exception_class {world} : pyclass world :=
  PyClass ["object"] false ["BaseException"; "object"]
    {[ "__init__" := method base_exception_init ]} ∅.

Definition exception_class {world} : pyclass world :=
  PyClass ["BaseException"] false ["Exception"; "BaseException"; "object"]
    {[ "__init__" := method base_exception_init ]} ∅.

Definition builtins {world} : class_table world :=
  <[ "Exception" := exception_class ]>
    (<[ "BaseException" := base_exception_class ]> {[ "object" := object_class ]}).

(** A small project on top of base.py, used to run the statements below on
    concrete classes.  Its world is a journal of what the hooks did. *)
Module Demo.
Definition world : Type := list string.

Definition writes (line : string) : implementation world :=
  fun _ _ w => (Returned PyNone, w ++ [line]).

Definition fails (line : string) (e : exn) : implementation world :=
  fun _ _ w => (Raised e, w ++ [line]).

Definition disk_full : exn := Exception (PyInt 28).

(** Modelled from the spec: the classes [Experiment] and [Run] of
    seal.experiment and seal.run, which base.py imports and which are not
    part of it.  The spec says only that they are opaque entities whose
    class can be told at run time: they are plain classes with an empty
    body. *)
Definition seal : list (classdef world) :=
  [ClassDef "Experiment" [] false [];
   ClassDef "Run" [] false []].

Definition project : list (classdef world) :=
  [ClassDef "Both" ["Experiment"; "Run"] false [];
   ClassDef "Tracker" ["HybridComponent"] false
     [("_call_on_experiment", Foreign (writes "tracker: experiment"));
      ("_call_on_run", Foreign (writes "tracker: run"))];
   ClassDef "Checker" ["ExperimentComponent"] false
     [("_call_on_experiment", Foreign (fails "checker: started" disk_full))];
   ClassDef "Timer" ["RunComponent"] false
     [("_call_on_run", Foreign (writes "timer: run"))];
   ClassDef "FileLogger" ["Logger"] false
     [("__init__", Foreign (writes "logger: open"));
      ("log_experiment", Foreign (writes "logger: experiment"));
      ("log_run", Foreign (writes "logger: run"));
      ("_log_metrics", Foreign (writes "logger: metrics"));
      ("_log_params", Foreign (writes "logger: params"));
      ("_log_model", Foreign (writes "logger: model"))];
   ClassDef "NullLogger" ["Logger"] false
     [("__init__", method (def_self_kwargs (fun self kwargs => pass)));
      ("log_experiment", method (def_self_1 "experiment" (fun self experiment => pass)));
      ("log_run", method (def_self_1 "run" (fun self run => pass)));
      ("_log_metrics", method (def_self_kwargs (fun self kwargs => pass)));
      ("_log_params", method (def_self_kwargs (fun self kwargs => pass)));
      ("_log_model", method (def_self_kwargs (fun self kwargs => pass)))];
   ClassDef "HalfTracker" ["HybridComponent"] false
     [("_call_on_experiment", Foreign (writes "half: experiment"))];
   ClassDef "FiveLogger" ["Logger"] false
     [("log_experiment", method (def_self_1 "experiment" (fun self experiment => pass)));
      ("log_run", method (def_self_1 "run" (fun self run => pass)));
      ("_log_metrics", method (def_self_kwargs (fun self kwargs => pass)));
      ("_log_params", method (def_self_kwargs (fun self kwargs => pass)));
      ("_log_model", method (def_self_kwargs (fun self kwargs => pass)))]].

Definition classes : class_table world :=
  match exec_module builtins (seal ++ base_py ++ project) with
  | inr ct => ct
  | inl _ => ∅
  end.

Definition start : state world := State [] [] 0.

Definition an_experiment : pyobj := PyObject "Experiment" 100.
Definition a_run : pyobj := PyObject "Run" 101.
Definition a_both : pyobj := PyObject "Both" 102.
Definition tracker : pyobj := PyObject "Tracker" 1.
Definition checker : pyobj := PyObject "Checker" 2.
Definition timer : pyobj := PyObject "Timer" 3.
Definition file_logger : pyobj := PyObject "FileLogger" 4.
Definition null_logger : pyobj := PyObject "NullLogger" 0.
End Demo.

(** ** More vocabulary *)

(** A call [f(name=x)]. *)
Definition keyword_arg (name : ident) (x : pyobj) : arguments := Args [] [(name, x)].

(** The four [__call__] of base.py, each with the name of its parameter:
    [object] in the three components, [obj] in [Logger]. *)
Definition call_parameters_of_base_py {world} : list (pyfunction world * ident) :=
  [(ExperimentComponent.__call__, "object");
   (RunComponent.__call__, "object");
   (HybridComponent.__call__, "object");
   (Logger.__call__, "obj")].

(** The classes base.py makes when nothing else is defined. *)
Definition base_classes {world} : class_table world :=
  match exec_module builtins base_py with
  | inr ct => ct
  | inl _ => ∅
  end.

(** The names of the five classes. *)
Definition class_names_of_base_py : list ident :=
  ["Component"; "ExperimentComponent"; "RunComponent"; "HybridComponent"; "Logger"].

(** Every name in the [__abstractmethods__] of a class is one that the class
    resolves to an abstract function. *)
Definition abstracts_are_abstract {world} (ct : class_table world) : Prop :=
  forall c k m, ct !! c = Some k -> m ∈ cls_abstractmethods k -> still_abstract ct c m = true.

(** A second project on base.py, with hooks that fail and classes that take
    two of the components as bases. *)
Module Demo2.
Definition flaky_logger : classdef Demo.world :=
  ClassDef "FlakyLogger" ["Logger"] false
    [("__init__", Foreign (Demo.writes "flaky: open"));
     ("log_experiment", Foreign (Demo.fails "flaky: experiment" Demo.disk_full));
     ("log_run", Foreign (Demo.fails "flaky: run" Demo.disk_full));
     ("_log_metrics", Foreign (Demo.writes "flaky: metrics"));
     ("_log_params", Foreign (Demo.writes "flaky: params"));
     ("_log_model", Foreign (Demo.writes "flaky: model"))].

Definition bare_logger : classdef Demo.world :=
  ClassDef "BareLogger" ["Logger"] false
    [("log_experiment", Foreign (Demo.writes "bare: experiment"));
     ("log_run", Foreign (Demo.writes "bare: run"));
     ("_log_metrics", Foreign (Demo.writes "bare: metrics"));
     ("_log_params", Foreign (Demo.writes "bare: params"));
     ("_log_model", Foreign (Demo.writes "bare: model"))].

Definition flaky_timer : classdef Demo.world :=
  ClassDef "FlakyTimer" ["RunComponent"] false
    [("_call_on_run", Foreign (Demo.fails "flaky timer: run" Demo.disk_full))].

Definition mixed : classdef Demo.world :=
  ClassDef "Mixed" ["ExperimentComponent"; "RunComponent"] false
    [("_call_on_experiment", Foreign (Demo.writes "mixed: experiment"));
     ("_call_on_run", Foreign (Demo.writes "mixed: run"))].

Definition reversed : classdef Demo.world :=
  ClassDef "Reversed" ["RunComponent"; "ExperimentComponent"] false
    [("_call_on_experiment", Foreign (Demo.writes "reversed: experiment"));
     ("_call_on_run", Foreign (Demo.writes "reversed: run"))].

Definition program : list (classdef Demo.world) :=
  Demo.seal ++ base_py ++ [flaky_logger; bare_logger; flaky_timer; mixed; reversed].

Definition classes : class_table Demo.world :=
  match exec_module builtins program with
  | inr ct => ct
  | inl _ => ∅
  end.
End Demo2.

(** A third project: classes that take a second base next to one of
    base.py, a logger whose [__init__] returns a value, and an abstract
    method declared again half way down. *)
Module Demo3.
Definition component_error : classdef Demo.world :=
  ClassDef "ComponentError" ["Component"; "Exception"] false [].

Definition hybrid_logger : classdef Demo.world :=
  ClassDef "HybridLogger" ["HybridComponent"; "Logger"] false
    [("__init__", Foreign (Demo.writes "hybrid logger: open"));
     ("_call_on_experiment", Foreign (Demo.writes "hybrid logger: on experiment"));
     ("_call_on_run", Foreign (Demo.writes "hybrid logger: on run"));
     ("log_experiment", Foreign (Demo.writes "hybrid logger: log experiment"));
     ("log_run", Foreign (Demo.writes "hybrid logger: log run"));
     ("_log_metrics", Foreign (Demo.writes "hybrid logger: metrics"));
     ("_log_params", Foreign (Demo.writes "hybrid logger: params"));
     ("_log_model", Foreign (Demo.writes "hybrid logger: model"))].

Definition returns (line : string) (v : pyobj) : implementation Demo.world :=
  fun _ _ w => (Returned v, w ++ [line]).

Definition ret_logger : classdef Demo.world :=
  ClassDef "RetLogger" ["Logger"] false
    [("__init__", Foreign (returns "ret: open" (PyInt 5)));
     ("log_experiment", Foreign (Demo.writes "ret: experiment"));
     ("log_run", Foreign (Demo.writes "ret: run"));
     ("_log_metrics", Foreign (Demo.writes "ret: metrics"));
     ("_log_params", Foreign (Demo.writes "ret: params"));
     ("_log_model", Foreign (Demo.writes "ret: model"))].

Definition stage : classdef Demo.world :=
  ClassDef "Stage" ["ExperimentComponent"] false
    [("_call_on_experiment", abstractmethod (def_self_1 "object" (fun self object => pass)))].

Definition last_stage : classdef Demo.world :=
  ClassDef "LastStage" ["Stage"] false [].

Definition program : list (classdef Demo.world) :=
  Demo.seal ++ base_py ++ [component_error; hybrid_logger; ret_logger; stage; last_stage].

Definition classes : class_table Demo.world :=
  match exec_module builtins program with
  | inr ct => ct
  | inl _ => ∅
  end.
End Demo3.

(** * Properties *)

(** ** The interpreter *)

Section InterpreterFacts.
Context {world : Type} (ct : class_table world).
Implicit Types (impl : implementation world) (st : state world).

Lemma call_method_source n self m args st abstract code :
  getattr ct (type_of self) m = Some (Source abstract code) ->
  call_method ct (S n) self m args st = run ct (call_method ct n) (code self args) st.
Proof. intros Hm. cbn [call_method]. by rewrite Hm. Qed.

Lemma call_method_foreign n self m args st impl :
  getattr ct (type_of self) m = Some (Foreign impl) ->
  call_method ct (S n) self m args st =
  let (r, w) := impl self args (st_world st) in (r, set_world st w).
Proof. intros Hm. cbn [call_method]. by rewrite Hm. Qed.

Lemma invoke_source n self args st abstract code :
  getattr ct (type_of self) "__call__" = Some (Source abstract code) ->
  invoke ct (S n) self args st = run ct (call_method ct n) (code self args) st.
Proof.
  intros Hm. unfold invoke. rewrite Hm. by apply (call_method_source _ _ _ _ _ abstract).
Qed.

(** A virtual call from the code of base.py that ends in foreign code. *)
Lemma run_call_foreign n self m args st impl :
  getattr ct (type_of self) m = Some (Foreign impl) ->
  run ct (call_method ct (S n)) (call self m args) st = hook_call impl self m args st.
Proof.
  intros Hm. unfold call, hook_call. cbn [run].
  rewrite (call_method_foreign _ _ _ _ _ _ Hm). cbn.
  destruct (impl self args (st_world st)) as [[v | e |] w]; reflexivity.
Qed.

Lemma run_call_dropped_foreign n self m args st impl :
  getattr ct (type_of self) m = Some (Foreign impl) ->
  run ct (call_method ct (S n)) (let* _ := call self m args in Ret PyNone) st =
  drop_value (hook_call impl self m args st).
Proof.
  intros Hm. unfold call, hook_call, drop_value. cbn [bind run].
  rewrite (call_method_foreign _ _ _ _ _ _ Hm). cbn.
  destruct (impl self args (st_world st)) as [[v | e |] w]; reflexivity.
Qed.

Lemma hook_call_trace impl self m args st :
  st_trace (hook_call impl self m args st).2 = st_trace st ++ [Called self m args].
Proof. unfold hook_call. by destruct (impl self args (st_world st)). Qed.

Lemma hook_call_world impl self m args st :
  ((hook_call impl self m args st).1, st_world (hook_call impl self m args st).2) =
  impl self args (st_world st).
Proof. unfold hook_call. by destruct (impl self args (st_world st)). Qed.

Lemma drop_value_state (r : outcome pyobj * state world) : (drop_value r).2 = r.2.
Proof. by destruct r as [[v | e |] st]. Qed.

Lemma calls_since_app (st st' : state world) l :
  st_trace st' = st_trace st ++ l -> calls_since st st' = l.
Proof. intros Htrace. unfold calls_since. rewrite Htrace. apply drop_app_length. Qed.
End InterpreterFacts.

(** [Hev : ev ∈ calls_since st st'] where the run made no call. *)
Ltac no_call_made Hev :=
  exfalso; revert Hev; unfold calls_since; cbn; rewrite drop_all; apply not_elem_of_nil.

(** [Hev : ev ∈ calls_since st st'] where the run was one call to a hook:
    [ev] is that call. *)
Ltac one_call_made Hev :=
  rewrite ?drop_value_state in Hev;
  rewrite (calls_since_app _ _ _ (hook_call_trace _ _ _ _ _)) in Hev;
  apply list_elem_of_singleton in Hev; subst.

(** ** The classes base.py makes *)

(** The MRO and the [__abstractmethods__] of the five classes, as class
    creation computes them. *)
Example base_py_classes :
  (fun c => (mro_of Demo.classes c, elements (abstractmethods_of Demo.classes c)))
    <$> ["Component"; "ExperimentComponent"; "RunComponent"; "HybridComponent"; "Logger"] =
  [(["Component"; "object"], ["__call__"]);
   (["ExperimentComponent"; "Component"; "object"], ["_call_on_experiment"]);
   (["RunComponent"; "Component"; "object"], ["_call_on_run"]);
   (["HybridComponent"; "ExperimentComponent"; "RunComponent"; "Component"; "object"],
    ["_call_on_experiment"; "_call_on_run"]);
   (["Logger"; "Component"; "object"],
    ["__init__"; "_log_model"; "_log_metrics"; "_log_params"; "log_experiment"; "log_run"])].
Proof. vm_compute. reflexivity. Qed.

(** [__init__] is abstract in [Logger] like the five logging methods: a
    subclass that writes the five and no [__init__] is still abstract. *)
Example five_methods_are_not_enough :
  abstractmethods_of Demo.classes "FiveLogger" = {[ "__init__" ]} /\
  instantiate Demo.classes 5 "FiveLogger" no_args Demo.start =
    (Raised abstract_class_error, Demo.start).
Proof. split; vm_compute; reflexivity. Qed.

(** ** What each [__call__] does *)

(** An object falls under the statements below through what its class
    resolves: [__call__] is the one base.py gives the family, and the hooks
    are those a subclass brought.  The classes [Experiment] and [Run] are
    whatever the class table says they are. *)

Section ExperimentComponentCall.
Context {world : Type} (ct : class_table world).
Context (self : pyobj) (on_experiment : implementation world).
Hypothesis Hcall : getattr ct (type_of self) "__call__" = Some ExperimentComponent.__call__.
Hypothesis Hhook : getattr ct (type_of self) "_call_on_experiment" = Some (Foreign on_experiment).

Lemma experiment_component_call x st n :
  invoke ct (S (S n)) self (one_arg x) st =
  hook_call on_experiment self "_call_on_experiment" (one_arg x) st.
Proof.
  rewrite (invoke_source _ _ _ _ _ _ _ Hcall). cbn [def_self_1 one_arg].
  by apply run_call_foreign.
Qed.
End ExperimentComponentCall.

Section RunComponentCall.
Context {world : Type} (ct : class_table world).
Context (self : pyobj) (on_run : implementation world).
Hypothesis Hcall : getattr ct (type_of self) "__call__" = Some RunComponent.__call__.
Hypothesis Hhook : getattr ct (type_of self) "_call_on_run" = Some (Foreign on_run).

Lemma run_component_call x st n :
  invoke ct (S (S n)) self (one_arg x) st =
  hook_call on_run self "_call_on_run" (one_arg x) st.
Proof.
  rewrite (invoke_source _ _ _ _ _ _ _ Hcall). cbn [def_self_1 one_arg].
  by apply run_call_foreign.
Qed.
End RunComponentCall.

Section HybridComponentCall.
Context {world : Type} (ct : class_table world).
Context (self : pyobj) (on_experiment on_run : implementation world).
Hypothesis Hcall : getattr ct (type_of self) "__call__" = Some HybridComponent.__call__.
Hypothesis Hexp : getattr ct (type_of self) "_call_on_experiment" = Some (Foreign on_experiment).
Hypothesis Hrun : getattr ct (type_of self) "_call_on_run" = Some (Foreign on_run).

Lemma hybrid_component_call x st n :
  invoke ct (S (S n)) self (one_arg x) st =
  if is_instance ct x Experiment then
    hook_call on_experiment self "_call_on_experiment" (one_arg x) st
  else if is_instance ct x Run then
    hook_call on_run self "_call_on_run" (one_arg x) st
  else (Returned PyNone, st).
Proof.
  rewrite (invoke_source _ _ _ _ _ _ _ Hcall).
  cbn [def_self_1 one_arg isinstance bind run].
  destruct (is_instance ct x Experiment).
  - by apply run_call_foreign.
  - cbn [bind run]. destruct (is_instance ct x Run).
    + by apply run_call_foreign.
    + reflexivity.
Qed.
End HybridComponentCall.

Section LoggerCall.
Context {world : Type} (ct : class_table world).
Context (self : pyobj) (log_experiment log_run : implementation world).
Hypothesis Hcall : getattr ct (type_of self) "__call__" = Some Logger.__call__.
Hypothesis Hexp : getattr ct (type_of self) "log_experiment" = Some (Foreign log_experiment).
Hypothesis Hrun : getattr ct (type_of self) "log_run" = Some (Foreign log_run).

Lemma logger_call x st n :
  invoke ct (S (S n)) self (one_arg x) st =
  if is_instance ct x Experiment then
    drop_value (hook_call log_experiment self "log_experiment" (one_arg x) st)
  else if is_instance ct x Run then
    drop_value (hook_call log_run self "log_run" (one_arg x) st)
  else (Returned PyNone, st).
Proof.
  rewrite (invoke_source _ _ _ _ _ _ _ Hcall).
  cbn [def_self_1 one_arg isinstance bind run].
  destruct (is_instance ct x Experiment).
  - by apply run_call_dropped_foreign.
  - cbn [bind run]. destruct (is_instance ct x Run).
    + by apply run_call_dropped_foreign.
    + reflexivity.
Qed.

(** Whatever the arguments, the call either fails to bind them, before
    anything is done, or is the call on one object. *)
Lemma logger_call_binding args st n :
  invoke ct (S (S n)) self args st = (Raised arity_error, st) \/
  exists x, invoke ct (S (S n)) self args st = invoke ct (S (S n)) self (one_arg x) st.
Proof.
  destruct args as [[| x [| x' pos]] [| [k v] [| b kw]]];
    rewrite (invoke_source _ _ _ _ _ _ _ Hcall); cbn [def_self_1 run]; try (by left).
  - destruct (String.eqb k "obj"); cbn [run]; [| by left].
    right. exists v. by rewrite (invoke_source _ _ _ _ _ _ _ Hcall).
  - right. exists x. by rewrite (invoke_source _ _ _ _ _ _ _ Hcall).
Qed.
End LoggerCall.

(** ** ExperimentComponent and RunComponent *)

(** base.py gives a subtype of [ExperimentComponent] one of two [__call__]:
    the one of [ExperimentComponent], or the one of [HybridComponent] when
    the class derives from it; likewise for [RunComponent].  The second one
    asks for an Experiment first. *)

Lemma hybrid_component_call_experiment {world : Type} (ct : class_table world)
    (self : pyobj) (on_experiment : implementation world) x st n :
  getattr ct (type_of self) "__call__" = Some HybridComponent.__call__ ->
  getattr ct (type_of self) "_call_on_experiment" = Some (Foreign on_experiment) ->
  is_instance ct x Experiment = true ->
  invoke ct (S (S n)) self (one_arg x) st =
  hook_call on_experiment self "_call_on_experiment" (one_arg x) st.
Proof.
  intros Hcall Hexp HE. rewrite (invoke_source _ _ _ _ _ _ _ Hcall).
  cbn [def_self_1 one_arg isinstance bind run]. rewrite HE.
  by apply run_call_foreign.
Qed.

Lemma hybrid_component_call_run {world : Type} (ct : class_table world)
    (self : pyobj) (on_run : implementation world) x st n :
  getattr ct (type_of self) "__call__" = Some HybridComponent.__call__ ->
  getattr ct (type_of self) "_call_on_run" = Some (Foreign on_run) ->
  is_instance ct x Experiment = false ->
  is_instance ct x Run = true ->
  invoke ct (S (S n)) self (one_arg x) st =
  hook_call on_run self "_call_on_run" (one_arg x) st.
Proof.
  intros Hcall Hrun HE HR. rewrite (invoke_source _ _ _ _ _ _ _ Hcall).
  cbn [def_self_1 one_arg isinstance bind run]. rewrite HE. cbn [bind run]. rewrite HR.
  by apply run_call_foreign.
Qed.

(** C3, as stated, fails on a subtype of [ExperimentComponent] that lists
    [RunComponent] first: [Reversed] is a concrete subtype of
    [ExperimentComponent] with no [__call__] of its own, the object is an
    Experiment, and the one call made is to [_call_on_run], not to
    [_call_on_experiment]. *)
Lemma experiment_component_subtype_skips_call_on_experiment :
  let reversed := PyObject "Reversed" 7 in
  issubclass Demo2.classes (type_of reversed) "ExperimentComponent" = true /\
  abstractmethods_of Demo2.classes (type_of reversed) = ∅ /\
  dict_lookup Demo2.classes (type_of reversed) "__call__" = None /\
  is_instance Demo2.classes Demo.an_experiment Experiment = true /\
  calls_since Demo.start
    (invoke Demo2.classes 2 reversed (one_arg Demo.an_experiment) Demo.start).2 =
    [Called reversed "_call_on_run" (one_arg Demo.an_experiment)] /\
  calls_since Demo.start
    (invoke Demo2.classes 2 reversed (one_arg Demo.an_experiment) Demo.start).2 <>
    [Called reversed "_call_on_experiment" (one_arg Demo.an_experiment)].
Proof.
  cbv zeta. repeat split; try (vm_compute; reflexivity).
  vm_compute. discriminate.
Qed.

(** C3 (amended).  An object whose [_call_on_experiment] a subclass brought,
    and whose class takes its [__call__] from [ExperimentComponent] or from
    [HybridComponent]: no class before these in its MRO defines one.  When its
    [__call__] is the one of [ExperimentComponent], invoking it on [x] makes
    exactly one call, [self._call_on_experiment(x)], with [x] as it was
    given, and hands back what that call gives; nothing is asked of [x], the
    delegation happens for an Experiment and for any other object alike.
    When its [__call__] is the one of [HybridComponent], the same holds for
    every [x] that is an Experiment. *)
Theorem experiment_component_delegates_once {world : Type}
    (ct : class_table world) (self : pyobj) (on_experiment : implementation world) :
  getattr ct (type_of self) "_call_on_experiment" = Some (Foreign on_experiment) ->
  forall (x : pyobj) (st : state world) (n : nat),
    getattr ct (type_of self) "__call__" = Some ExperimentComponent.__call__ \/
    (getattr ct (type_of self) "__call__" = Some HybridComponent.__call__ /\
     is_instance ct x Experiment = true) ->
    let r := invoke ct (S (S n)) self (one_arg x) st in
    calls_since st r.2 = [Called self "_call_on_experiment" (one_arg x)] /\
    (r.1, st_world r.2) = on_experiment self (one_arg x) (st_world st).
Proof.
  intros Hhook x st n Hcall r.
  assert (Hr : r = hook_call on_experiment self "_call_on_experiment" (one_arg x) st).
  { destruct Hcall as [Hcall | [Hcall HE]].
    - by apply experiment_component_call.
    - by apply hybrid_component_call_experiment. }
  rewrite Hr. split.
  - apply calls_since_app, hook_call_trace.
  - apply hook_call_world.
Qed.

Lemma experiment_component_delegates_once_witness :
  (let r := invoke Demo.classes 2 Demo.checker (one_arg Demo.an_experiment) Demo.start in
   calls_since Demo.start r.2 =
     [Called Demo.checker "_call_on_experiment" (one_arg Demo.an_experiment)] /\
   (r.1, st_world r.2) = (Raised Demo.disk_full, ["checker: started"])) /\
  (let r := invoke Demo.classes 2 Demo.tracker (one_arg Demo.an_experiment) Demo.start in
   calls_since Demo.start r.2 =
     [Called Demo.tracker "_call_on_experiment" (one_arg Demo.an_experiment)] /\
   (r.1, st_world r.2) = (Returned PyNone, ["tracker: experiment"])).
Proof.
  split.
  - apply (experiment_component_delegates_once Demo.classes Demo.checker
             (Demo.fails "checker: started" Demo.disk_full));
      [vm_compute; reflexivity | left; vm_compute; reflexivity].
  - apply (experiment_component_delegates_once Demo.classes Demo.tracker
             (Demo.writes "tracker: experiment"));
      [vm_compute; reflexivity | right; split; vm_compute; reflexivity].
Defined.

(** C4, as stated, fails on a subtype of [RunComponent] that goes through
    [HybridComponent]: [Tracker] is a concrete subtype of [RunComponent],
    the object is a Run, and the one call made is to [_call_on_experiment],
    not to [_call_on_run]. *)
Lemma run_component_subtype_skips_call_on_run :
  issubclass Demo.classes (type_of Demo.tracker) "RunComponent" = true /\
  abstractmethods_of Demo.classes (type_of Demo.tracker) = ∅ /\
  is_instance Demo.classes Demo.a_both Run = true /\
  calls_since Demo.start
    (invoke Demo.classes 2 Demo.tracker (one_arg Demo.a_both) Demo.start).2 =
    [Called Demo.tracker "_call_on_experiment" (one_arg Demo.a_both)] /\
  calls_since Demo.start
    (invoke Demo.classes 2 Demo.tracker (one_arg Demo.a_both) Demo.start).2 <>
    [Called Demo.tracker "_call_on_run" (one_arg Demo.a_both)].
Proof.
  repeat split; try (vm_compute; reflexivity).
  vm_compute. discriminate.
Qed.

(** C4 (amended).  An object whose [_call_on_run] a subclass brought, and
    whose class takes its [__call__] from [RunComponent] or from
    [HybridComponent]: no class before these in its MRO defines one.  When
    its [__call__] is the one of [RunComponent], invoking it on [x] makes
    exactly one call, [self._call_on_run(x)], with [x] as it was given, and
    hands back what that call gives, for every [x].  When its [__call__] is
    the one of [HybridComponent], the same holds for every [x] that is a Run
    and not an Experiment. *)
Theorem run_component_delegates_once {world : Type}
    (ct : class_table world) (self : pyobj) (on_run : implementation world) :
  getattr ct (type_of self) "_call_on_run" = Some (Foreign on_run) ->
  forall (x : pyobj) (st : state world) (n : nat),
    getattr ct (type_of self) "__call__" = Some RunComponent.__call__ \/
    (getattr ct (type_of self) "__call__" = Some HybridComponent.__call__ /\
     is_instance ct x Experiment = false /\ is_instance ct x Run = true) ->
    let r := invoke ct (S (S n)) self (one_arg x) st in
    calls_since st r.2 = [Called self "_call_on_run" (one_arg x)] /\
    (r.1, st_world r.2) = on_run self (one_arg x) (st_world st).
Proof.
  intros Hhook x st n Hcall r.
  assert (Hr : r = hook_call on_run self "_call_on_run" (one_arg x) st).
  { destruct Hcall as [Hcall | (Hcall & HE & HR)].
    - by apply run_component_call.
    - by apply hybrid_component_call_run. }
  rewrite Hr. split.
  - apply calls_since_app, hook_call_trace.
  - apply hook_call_world.
Qed.

Lemma run_component_delegates_once_witness :
  (let r := invoke Demo.classes 2 Demo.timer (one_arg Demo.a_run) Demo.start in
   calls_since Demo.start r.2 = [Called Demo.timer "_call_on_run" (one_arg Demo.a_run)] /\
   (r.1, st_world r.2) = (Returned PyNone, ["timer: run"])) /\
  (let r := invoke Demo.classes 2 Demo.tracker (one_arg Demo.a_run) Demo.start in
   calls_since Demo.start r.2 = [Called Demo.tracker "_call_on_run" (one_arg Demo.a_run)] /\
   (r.1, st_world r.2) = (Returned PyNone, ["tracker: run"])).
Proof.
  split.
  - apply (run_component_delegates_once Demo.classes Demo.timer (Demo.writes "timer: run"));
      [vm_compute; reflexivity | left; vm_compute; reflexivity].
  - apply (run_component_delegates_once Demo.classes Demo.tracker (Demo.writes "tracker: run"));
      [vm_compute; reflexivity | right; repeat split; vm_compute; reflexivity].
Defined.

(** C6.  When the hook raises, so does the invocation: the same exception,
    the world as the hook left it, and the one call to the hook as the
    only call made (nothing is caught, wrapped or tried again).  This holds
    under the [__call__] of [ExperimentComponent] for every argument, and
    under the one of [HybridComponent] for every Experiment, the arguments
    it hands to the hook. *)
Theorem experiment_component_propagates_failure {world : Type}
    (ct : class_table world) (self : pyobj) (on_experiment : implementation world) :
  getattr ct (type_of self) "_call_on_experiment" = Some (Foreign on_experiment) ->
  forall (x : pyobj) (st : state world) (n : nat) (e : exn) (w' : world),
    getattr ct (type_of self) "__call__" = Some ExperimentComponent.__call__ \/
    (getattr ct (type_of self) "__call__" = Some HybridComponent.__call__ /\
     is_instance ct x Experiment = true) ->
    on_experiment self (one_arg x) (st_world st) = (Raised e, w') ->
    invoke ct (S (S n)) self (one_arg x) st =
    (Raised e,
     State w' (st_trace st ++ [Called self "_call_on_experiment" (one_arg x)]) (st_next st)).
Proof.
  intros Hhook x st n e w' Hcall Hraise.
  assert (Hr : invoke ct (S (S n)) self (one_arg x) st =
               hook_call on_experiment self "_call_on_experiment" (one_arg x) st).
  { destruct Hcall as [Hcall | [Hcall HE]].
    - by apply experiment_component_call.
    - by apply hybrid_component_call_experiment. }
  rewrite Hr. unfold hook_call. by rewrite Hraise.
Qed.

Lemma experiment_component_propagates_failure_witness :
  invoke Demo.classes 2 Demo.checker (one_arg Demo.an_experiment) Demo.start =
  (Raised Demo.disk_full,
   State ["checker: started"]
     [Called Demo.checker "_call_on_experiment" (one_arg Demo.an_experiment)] 0).
Proof.
  apply (experiment_component_propagates_failure Demo.classes Demo.checker
           (Demo.fails "checker: started" Demo.disk_full));
    [vm_compute; reflexivity | left; vm_compute; reflexivity | vm_compute; reflexivity].
Defined.

(** ** HybridComponent and Logger *)

(** C1.  An object whose [__call__] is the one of [HybridComponent], with
    both hooks brought by a subclass.  Invoked on an Experiment it makes the
    one call [self._call_on_experiment(x)]; on a Run that is not an
    Experiment, the one call [self._call_on_run(x)]; on anything else it
    calls nothing, changes nothing and returns [None].  So a call to
    [_call_on_experiment] is only made for an Experiment, and a call to
    [_call_on_run] only for a Run. *)
Theorem hybrid_component_dispatch {world : Type}
    (ct : class_table world) (self : pyobj) (on_experiment on_run : implementation world) :
  getattr ct (type_of self) "__call__" = Some HybridComponent.__call__ ->
  getattr ct (type_of self) "_call_on_experiment" = Some (Foreign on_experiment) ->
  getattr ct (type_of self) "_call_on_run" = Some (Foreign on_run) ->
  forall (x : pyobj) (st : state world) (n : nat),
    let r := invoke ct (S (S n)) self (one_arg x) st in
    (is_instance ct x Experiment = true ->
       r = hook_call on_experiment self "_call_on_experiment" (one_arg x) st) /\
    (is_instance ct x Experiment = false -> is_instance ct x Run = true ->
       r = hook_call on_run self "_call_on_run" (one_arg x) st) /\
    (is_instance ct x Experiment = false -> is_instance ct x Run = false ->
       r = (Returned PyNone, st)) /\
    (forall ev, ev ∈ calls_since st r.2 -> ev_meth ev = "_call_on_experiment" ->
       is_instance ct x Experiment = true) /\
    (forall ev, ev ∈ calls_since st r.2 -> ev_meth ev = "_call_on_run" ->
       is_instance ct x Run = true).
Proof.
  intros Hcall Hexp Hrun x st n r. subst r.
  rewrite (hybrid_component_call ct self on_experiment on_run Hcall Hexp Hrun).
  destruct (is_instance ct x Experiment) eqn:HE; [| destruct (is_instance ct x Run) eqn:HR].
  - repeat split; try done. intros ev Hev Hmeth. by one_call_made Hev.
  - repeat split; try done. intros ev Hev Hmeth. by one_call_made Hev.
  - repeat split; try done; intros ev Hev; no_call_made Hev.
Qed.

Lemma hybrid_component_dispatch_witness :
  invoke Demo.classes 2 Demo.tracker (one_arg Demo.an_experiment) Demo.start =
    (Returned PyNone,
     State ["tracker: experiment"]
       [Called Demo.tracker "_call_on_experiment" (one_arg Demo.an_experiment)] 0) /\
  invoke Demo.classes 2 Demo.tracker (one_arg Demo.a_run) Demo.start =
    (Returned PyNone,
     State ["tracker: run"] [Called Demo.tracker "_call_on_run" (one_arg Demo.a_run)] 0) /\
  invoke Demo.classes 2 Demo.tracker (one_arg (PyInt 3)) Demo.start =
    (Returned PyNone, Demo.start).
Proof.
  assert (Hat : forall x,
    let r := invoke Demo.classes 2 Demo.tracker (one_arg x) Demo.start in
    (is_instance Demo.classes x Experiment = true ->
       r = hook_call (Demo.writes "tracker: experiment") Demo.tracker
             "_call_on_experiment" (one_arg x) Demo.start) /\
    (is_instance Demo.classes x Experiment = false ->
     is_instance Demo.classes x Run = true ->
       r = hook_call (Demo.writes "tracker: run") Demo.tracker
             "_call_on_run" (one_arg x) Demo.start) /\
    (is_instance Demo.classes x Experiment = false ->
     is_instance Demo.classes x Run = false ->
       r = (Returned PyNone, Demo.start)) /\
    (forall ev, ev ∈ calls_since Demo.start r.2 -> ev_meth ev = "_call_on_experiment" ->
       is_instance Demo.classes x Experiment = true) /\
    (forall ev, ev ∈ calls_since Demo.start r.2 -> ev_meth ev = "_call_on_run" ->
       is_instance Demo.classes x Run = true)).
  { intros x.
    apply (hybrid_component_dispatch Demo.classes Demo.tracker
             (Demo.writes "tracker: experiment") (Demo.writes "tracker: run"));
      vm_compute; reflexivity. }
  split; [| split].
  - apply (Hat Demo.an_experiment). vm_compute; reflexivity.
  - apply (Hat Demo.a_run); vm_compute; reflexivity.
  - apply (Hat (PyInt 3)); vm_compute; reflexivity.
Defined.

(** C2, as stated, fails on a Run that is an Experiment too: [FileLogger]
    is a concrete subtype of [Logger], the object is a Run, and the one call
    made is to [log_experiment], not to [log_run]. *)
Lemma logger_skips_log_run_on_a_run :
  issubclass Demo.classes (type_of Demo.file_logger) "Logger" = true /\
  abstractmethods_of Demo.classes (type_of Demo.file_logger) = ∅ /\
  is_instance Demo.classes Demo.a_both Run = true /\
  calls_since Demo.start
    (invoke Demo.classes 2 Demo.file_logger (one_arg Demo.a_both) Demo.start).2 =
    [Called Demo.file_logger "log_experiment" (one_arg Demo.a_both)] /\
  calls_since Demo.start
    (invoke Demo.classes 2 Demo.file_logger (one_arg Demo.a_both) Demo.start).2 <>
    [Called Demo.file_logger "log_run" (one_arg Demo.a_both)].
Proof.
  repeat split; try (vm_compute; reflexivity).
  vm_compute. discriminate.
Qed.

(** It fails as well on a subtype of [Logger] that takes its [__call__]
    from another class of base.py: [HybridLogger] lists [HybridComponent]
    before [Logger], is concrete, and on an Experiment makes the one call
    [_call_on_experiment], not [log_experiment]. *)
Example hybrid_logger_skips_log_experiment :
  let hybrid_logger := PyObject "HybridLogger" 9 in
  issubclass Demo3.classes (type_of hybrid_logger) "Logger" = true /\
  abstractmethods_of Demo3.classes (type_of hybrid_logger) = ∅ /\
  dict_lookup Demo3.classes (type_of hybrid_logger) "__call__" = None /\
  is_instance Demo3.classes Demo.an_experiment Experiment = true /\
  calls_since Demo.start
    (invoke Demo3.classes 2 hybrid_logger (one_arg Demo.an_experiment) Demo.start).2 =
    [Called hybrid_logger "_call_on_experiment" (one_arg Demo.an_experiment)].
Proof. cbv zeta. repeat split; vm_compute; reflexivity. Qed.

(** C2 (amended).  An object whose class takes its [__call__] from
    [Logger] (no class before [Logger] in its MRO defines one), with
    [log_experiment] and [log_run] brought by a subclass.  Invoked on an
    Experiment it makes the one call [self.log_experiment(x)]; on a Run that
    is not an Experiment, the one call [self.log_run(x)]; on anything else
    it calls nothing, changes nothing and returns [None].  So a call to
    [log_experiment] is only made for an Experiment, and a call to [log_run]
    only for a Run. *)
Theorem logger_dispatch {world : Type}
    (ct : class_table world) (self : pyobj) (log_experiment log_run : implementation world) :
  getattr ct (type_of self) "__call__" = Some Logger.__call__ ->
  getattr ct (type_of self) "log_experiment" = Some (Foreign log_experiment) ->
  getattr ct (type_of self) "log_run" = Some (Foreign log_run) ->
  forall (x : pyobj) (st : state world) (n : nat),
    let r := invoke ct (S (S n)) self (one_arg x) st in
    (is_instance ct x Experiment = true ->
       r = drop_value (hook_call log_experiment self "log_experiment" (one_arg x) st)) /\
    (is_instance ct x Experiment = false -> is_instance ct x Run = true ->
       r = drop_value (hook_call log_run self "log_run" (one_arg x) st)) /\
    (is_instance ct x Experiment = false -> is_instance ct x Run = false ->
       r = (Returned PyNone, st)) /\
    (forall ev, ev ∈ calls_since st r.2 -> ev_meth ev = "log_experiment" ->
       is_instance ct x Experiment = true) /\
    (forall ev, ev ∈ calls_since st r.2 -> ev_meth ev = "log_run" ->
       is_instance ct x Run = true).
Proof.
  intros Hcall Hexp Hrun x st n r. subst r.
  rewrite (logger_call ct self log_experiment log_run Hcall Hexp Hrun).
  destruct (is_instance ct x Experiment) eqn:HE; [| destruct (is_instance ct x Run) eqn:HR].
  - repeat split; try done. intros ev Hev Hmeth. by one_call_made Hev.
  - repeat split; try done. intros ev Hev Hmeth. by one_call_made Hev.
  - repeat split; try done; intros ev Hev; no_call_made Hev.
Qed.

Lemma logger_dispatch_witness :
  invoke Demo.classes 2 Demo.file_logger (one_arg Demo.an_experiment) Demo.start =
    (Returned PyNone,
     State ["logger: experiment"]
       [Called Demo.file_logger "log_experiment" (one_arg Demo.an_experiment)] 0) /\
  invoke Demo.classes 2 Demo.file_logger (one_arg Demo.a_run) Demo.start =
    (Returned PyNone,
     State ["logger: run"] [Called Demo.file_logger "log_run" (one_arg Demo.a_run)] 0) /\
  invoke Demo.classes 2 Demo.file_logger (one_arg (PyInt 3)) Demo.start =
    (Returned PyNone, Demo.start).
Proof.
  assert (Hat : forall x,
    let r := invoke Demo.classes 2 Demo.file_logger (one_arg x) Demo.start in
    (is_instance Demo.classes x Experiment = true ->
       r = drop_value (hook_call (Demo.writes "logger: experiment") Demo.file_logger
                         "log_experiment" (one_arg x) Demo.start)) /\
    (is_instance Demo.classes x Experiment = false ->
     is_instance Demo.classes x Run = true ->
       r = drop_value (hook_call (Demo.writes "logger: run") Demo.file_logger
                         "log_run" (one_arg x) Demo.start)) /\
    (is_instance Demo.classes x Experiment = false ->
     is_instance Demo.classes x Run = false ->
       r = (Returned PyNone, Demo.start)) /\
    (forall ev, ev ∈ calls_since Demo.start r.2 -> ev_meth ev = "log_experiment" ->
       is_instance Demo.classes x Experiment = true) /\
    (forall ev, ev ∈ calls_since Demo.start r.2 -> ev_meth ev = "log_run" ->
       is_instance Demo.classes x Run = true)).
  { intros x.
    apply (logger_dispatch Demo.classes Demo.file_logger
             (Demo.writes "logger: experiment") (Demo.writes "logger: run"));
      vm_compute; reflexivity. }
  split; [| split].
  - apply (Hat Demo.an_experiment). vm_compute; reflexivity.
  - apply (Hat Demo.a_run); vm_compute; reflexivity.
  - apply (Hat (PyInt 3)); vm_compute; reflexivity.
Defined.

(** C8.  The two dispatching [__call__] keep no state of their own.  The
    world after an invocation is the world the dispatched hook leaves, the
    hook being chosen from the class of the argument alone; no object is
    created; and on an argument that is neither an Experiment nor a Run the
    state after is the state before, so that the component and the argument,
    which live in the world, are as they were. *)
Theorem call_is_stateless {world : Type} (ct : class_table world)
    (component logger : pyobj)
    (on_experiment on_run log_experiment log_run : implementation world) :
  getattr ct (type_of component) "__call__" = Some HybridComponent.__call__ ->
  getattr ct (type_of component) "_call_on_experiment" = Some (Foreign on_experiment) ->
  getattr ct (type_of component) "_call_on_run" = Some (Foreign on_run) ->
  getattr ct (type_of logger) "__call__" = Some Logger.__call__ ->
  getattr ct (type_of logger) "log_experiment" = Some (Foreign log_experiment) ->
  getattr ct (type_of logger) "log_run" = Some (Foreign log_run) ->
  forall (x : pyobj) (st : state world) (n : nat),
    let h := invoke ct (S (S n)) component (one_arg x) st in
    let l := invoke ct (S (S n)) logger (one_arg x) st in
    st_world h.2 =
      (if is_instance ct x Experiment then
         (on_experiment component (one_arg x) (st_world st)).2
       else if is_instance ct x Run then
         (on_run component (one_arg x) (st_world st)).2
       else st_world st) /\
    st_world l.2 =
      (if is_instance ct x Experiment then
         (log_experiment logger (one_arg x) (st_world st)).2
       else if is_instance ct x Run then
         (log_run logger (one_arg x) (st_world st)).2
       else st_world st) /\
    st_next h.2 = st_next st /\
    st_next l.2 = st_next st /\
    (is_instance ct x Experiment = false -> is_instance ct x Run = false ->
       h = (Returned PyNone, st) /\ l = (Returned PyNone, st)).
Proof.
  intros Hc He Hr Lc Le Lr x st n h l. subst h l.
  rewrite (hybrid_component_call ct component on_experiment on_run Hc He Hr).
  rewrite (logger_call ct logger log_experiment log_run Lc Le Lr).
  unfold hook_call.
  destruct (is_instance ct x Experiment); [| destruct (is_instance ct x Run)].
  - destruct (on_experiment _ _ _) as [[v | e |] w], (log_experiment _ _ _) as [[v' | e' |] w'];
      repeat split; done.
  - destruct (on_run _ _ _) as [[v | e |] w], (log_run _ _ _) as [[v' | e' |] w'];
      repeat split; done.
  - repeat split; done.
Qed.

Lemma call_is_stateless_witness :
  let h := invoke Demo.classes 2 Demo.tracker (one_arg (PyInt 3)) Demo.start in
  let l := invoke Demo.classes 2 Demo.file_logger (one_arg (PyInt 3)) Demo.start in
  h = (Returned PyNone, Demo.start) /\ l = (Returned PyNone, Demo.start).
Proof.
  apply (call_is_stateless Demo.classes Demo.tracker Demo.file_logger
           (Demo.writes "tracker: experiment") (Demo.writes "tracker: run")
           (Demo.writes "logger: experiment") (Demo.writes "logger: run"));
    vm_compute; reflexivity.
Defined.

(** C9.  Both [__call__] ask for an Experiment first.  On an object that is
    an Experiment and a Run at once, the only call made is the one to the
    experiment handler ([_call_on_experiment], [log_experiment]): the run
    handler is not called. *)
Theorem experiment_checked_before_run {world : Type} (ct : class_table world)
    (component logger : pyobj)
    (on_experiment on_run log_experiment log_run : implementation world) :
  getattr ct (type_of component) "__call__" = Some HybridComponent.__call__ ->
  getattr ct (type_of component) "_call_on_experiment" = Some (Foreign on_experiment) ->
  getattr ct (type_of component) "_call_on_run" = Some (Foreign on_run) ->
  getattr ct (type_of logger) "__call__" = Some Logger.__call__ ->
  getattr ct (type_of logger) "log_experiment" = Some (Foreign log_experiment) ->
  getattr ct (type_of logger) "log_run" = Some (Foreign log_run) ->
  forall (x : pyobj) (st : state world) (n : nat),
    is_instance ct x Experiment = true ->
    is_instance ct x Run = true ->
    let h := invoke ct (S (S n)) component (one_arg x) st in
    let l := invoke ct (S (S n)) logger (one_arg x) st in
    h = hook_call on_experiment component "_call_on_experiment" (one_arg x) st /\
    calls_since st h.2 = [Called component "_call_on_experiment" (one_arg x)] /\
    l = drop_value (hook_call log_experiment logger "log_experiment" (one_arg x) st) /\
    calls_since st l.2 = [Called logger "log_experiment" (one_arg x)].
Proof.
  intros Hc He Hr Lc Le Lr x st n HE HR h l. subst h l.
  rewrite (hybrid_component_call ct component on_experiment on_run Hc He Hr).
  rewrite (logger_call ct logger log_experiment log_run Lc Le Lr).
  rewrite HE. repeat split.
  - apply calls_since_app, hook_call_trace.
  - rewrite drop_value_state. apply calls_since_app, hook_call_trace.
Qed.

Lemma experiment_checked_before_run_witness :
  let h := invoke Demo.classes 2 Demo.tracker (one_arg Demo.a_both) Demo.start in
  let l := invoke Demo.classes 2 Demo.file_logger (one_arg Demo.a_both) Demo.start in
  h = (Returned PyNone,
       State ["tracker: experiment"]
         [Called Demo.tracker "_call_on_experiment" (one_arg Demo.a_both)] 0) /\
  calls_since Demo.start h.2 =
    [Called Demo.tracker "_call_on_experiment" (one_arg Demo.a_both)] /\
  l = (Returned PyNone,
       State ["logger: experiment"]
         [Called Demo.file_logger "log_experiment" (one_arg Demo.a_both)] 0) /\
  calls_since Demo.start l.2 =
    [Called Demo.file_logger "log_experiment" (one_arg Demo.a_both)].
Proof.
  apply (experiment_checked_before_run Demo.classes Demo.tracker Demo.file_logger
           (Demo.writes "tracker: experiment") (Demo.writes "tracker: run")
           (Demo.writes "logger: experiment") (Demo.writes "logger: run"));
    vm_compute; reflexivity.
Defined.

(** C10.  Whatever it is invoked with, the [__call__] of [Logger] calls
    nothing but [log_experiment] and [log_run]: no call to [_log_metrics],
    [_log_params] or [_log_model] comes from it. *)
Theorem logger_call_reaches_only_log_experiment_and_log_run {world : Type}
    (ct : class_table world) (self : pyobj) (log_experiment log_run : implementation world) :
  getattr ct (type_of self) "__call__" = Some Logger.__call__ ->
  getattr ct (type_of self) "log_experiment" = Some (Foreign log_experiment) ->
  getattr ct (type_of self) "log_run" = Some (Foreign log_run) ->
  forall (args : arguments) (st : state world) (n : nat) (ev : event),
    ev ∈ calls_since st (invoke ct (S (S n)) self args st).2 ->
    (ev_meth ev = "log_experiment" \/ ev_meth ev = "log_run") /\
    ev_meth ev <> "_log_metrics" /\ ev_meth ev <> "_log_params" /\ ev_meth ev <> "_log_model".
Proof.
  intros Hcall Hexp Hrun args st n ev Hev.
  assert (Hname : ev_meth ev = "log_experiment" \/ ev_meth ev = "log_run");
    [| destruct Hname as [Hname | Hname]; rewrite Hname; repeat split; auto; discriminate].
  destruct (logger_call_binding ct self Hcall args st n) as [Hbind | [x Hbind]];
    rewrite Hbind in Hev.
  { no_call_made Hev. }
  rewrite (logger_call ct self log_experiment log_run Hcall Hexp Hrun) in Hev.
  destruct (is_instance ct x Experiment); [| destruct (is_instance ct x Run)].
  - one_call_made Hev. by left.
  - one_call_made Hev. by right.
  - no_call_made Hev.
Qed.

Lemma logger_call_reaches_only_log_experiment_and_log_run_witness :
  let ev := Called Demo.file_logger "log_run" (one_arg Demo.a_run) in
  (ev_meth ev = "log_experiment" \/ ev_meth ev = "log_run") /\
  ev_meth ev <> "_log_metrics" /\ ev_meth ev <> "_log_params" /\ ev_meth ev <> "_log_model".
Proof.
  apply (logger_call_reaches_only_log_experiment_and_log_run Demo.classes Demo.file_logger
           (Demo.writes "logger: experiment") (Demo.writes "logger: run")
           eq_refl eq_refl eq_refl (one_arg Demo.a_run) Demo.start 0).
  vm_compute. apply list_elem_of_here.
Defined.

(** ** A logger that does nothing *)

Section NullLogger.
Context {world : Type} (ct : class_table world) (self : pyobj).

Lemma run_call_noop n m f x (st : state world) :
  getattr ct (type_of self) m = Some f ->
  is_noop_method f ->
  run ct (call_method ct (S n)) (let* _ := call self m (one_arg x) in Ret PyNone) st =
  (Returned PyNone, record_call st (Called self m (one_arg x))).
Proof.
  intros Hm (code & -> & Hcode). unfold call. cbn [bind run].
  rewrite (call_method_source _ _ _ _ _ _ _ _ Hm), Hcode. reflexivity.
Qed.
End NullLogger.

(** [cls(...)] gives an object of class [cls]. *)
Lemma instantiate_type_of {world : Type} (ct : class_table world) fuel cls args
    (st st' : state world) self :
  instantiate ct fuel cls args st = (Returned self, st') -> type_of self = cls.
Proof.
  assert (Hmade : construct ct fuel cls args st = (Returned self, st') -> type_of self = cls).
  { unfold construct.
    destruct (call_method _ _ _ _ _ _) as [[[| z | c a] | e |] st1]; try done.
    by intros [= <- _]. }
  unfold instantiate. destruct (ct !! cls) as [k |]; [| done].
  destruct (inherits_builtin_new ct cls); [done |].
  destruct (excess_args args && init_is_object_init ct cls); [done |].
  by case_decide.
Qed.

(** C7.  A class whose [__call__] is the one of [Logger] and whose five
    logging methods are written [pass].  An object of it constructed with
    no configuration can be invoked on every argument, an Experiment, a Run
    or anything else such as an integer: the invocation returns [None] and
    leaves the world as it was. *)
Theorem null_logger_never_raises {world : Type} (ct : class_table world) (cls : ident)
    (log_experiment log_run log_metrics log_params log_model : pyfunction world) :
  getattr ct cls "__call__" = Some Logger.__call__ ->
  getattr ct cls "log_experiment" = Some log_experiment -> is_noop_method log_experiment ->
  getattr ct cls "log_run" = Some log_run -> is_noop_method log_run ->
  getattr ct cls "_log_metrics" = Some log_metrics -> is_noop_kwargs log_metrics ->
  getattr ct cls "_log_params" = Some log_params -> is_noop_kwargs log_params ->
  getattr ct cls "_log_model" = Some log_model -> is_noop_kwargs log_model ->
  forall (fuel : nat) (st0 st1 : state world) (self : pyobj),
    instantiate ct fuel cls no_args st0 = (Returned self, st1) ->
    forall (x : pyobj) (st : state world) (n : nat),
      exists st', invoke ct (S (S n)) self (one_arg x) st = (Returned PyNone, st') /\
                  st_world st' = st_world st.
Proof.
  intros Hcall Hexp Nexp Hrun Nrun _ _ _ _ _ _ fuel st0 st1 self Hnew x st n.
  apply instantiate_type_of in Hnew as <-.
  rewrite (invoke_source ct _ self _ _ _ _ Hcall).
  cbn [def_self_1 one_arg isinstance bind run].
  destruct (is_instance ct x Experiment); [| cbn [bind run]; destruct (is_instance ct x Run)].
  - eexists. split; [by apply (run_call_noop ct self _ _ log_experiment) |]. reflexivity.
  - eexists. split; [by apply (run_call_noop ct self _ _ log_run) |]. reflexivity.
  - eexists. split; reflexivity.
Qed.

Lemma null_logger_never_raises_witness :
  instantiate Demo.classes 1 "NullLogger" no_args Demo.start =
    (Returned Demo.null_logger, alloc Demo.start) /\
  forall (x : pyobj) (st : state Demo.world) (n : nat),
    exists st', invoke Demo.classes (S (S n)) Demo.null_logger (one_arg x) st =
                  (Returned PyNone, st') /\
                st_world st' = st_world st.
Proof.
  split; [vm_compute; reflexivity |].
  pose (noop1 := fun name : ident =>
    @method Demo.world (def_self_1 name (fun _ _ => pass))).
  pose (noopk := @method Demo.world (def_self_kwargs (fun _ _ => pass))).
  assert (N1 : forall name, is_noop_method (noop1 name)).
  { intros name. eexists. split; [reflexivity |]. intros self x. reflexivity. }
  assert (Nk : is_noop_kwargs noopk).
  { eexists. split; [reflexivity |]. intros self kwargs. reflexivity. }
  refine (null_logger_never_raises Demo.classes "NullLogger"
            (noop1 "experiment") (noop1 "run") noopk noopk noopk
            _ _ (N1 _) _ (N1 _) _ Nk _ Nk _ Nk
            1 Demo.start (alloc Demo.start) Demo.null_logger _);
    vm_compute; reflexivity.
Defined.

(** ** The linearisation *)

Section C3Facts.
Implicit Types (s r : list ident) (seqs : list (list ident)).

Lemma c3_merge_step fuel seqs r :
  c3_merge (S fuel) seqs = Some r ->
  let live := List.filter nonempty seqs in
  (live = [] /\ r = []) \/
  exists c r', r = c :: r' /\ c ∈ c3_heads live /\ c3_good live c = true /\
               c3_merge fuel (c3_drop c <$> live) = Some r'.
Proof.
  intros Hmerge live. cbn [c3_merge] in Hmerge. fold live in Hmerge.
  destruct live as [| s0 rest] eqn:Hlive.
  { left. by inversion Hmerge. }
  right. destruct (List.find _ _) as [c |] eqn:Hfind; [| done].
  apply find_some in Hfind as [Hin Hgood].
  destruct (c3_merge fuel _) as [r' |] eqn:Hrec; [| done].
  exists c, r'. repeat split; try done.
  - by inversion Hmerge.
  - by apply list_elem_of_In.
Qed.

Lemma live_elem_of seqs s : s ∈ List.filter nonempty seqs <-> s ∈ seqs /\ s <> [].
Proof.
  rewrite list_elem_of_In, filter_In, <- list_elem_of_In.
  destruct s; cbn; intuition congruence.
Qed.

Lemma c3_drop_elem_of c s x : x ∈ c3_drop c s -> x ∈ s.
Proof.
  destruct s as [| y t]; [done |]. cbn. case_decide; [| done].
  intros. by apply list_elem_of_further.
Qed.

(** A class that no tail holds is gone from every sequence once dropped. *)
Lemma c3_good_drop seqs c s :
  c3_good seqs c = true -> s ∈ seqs -> c ∉ c3_drop c s.
Proof.
  unfold c3_good. rewrite forallb_forall. intros Hgood Hs.
  specialize (Hgood s (proj1 (list_elem_of_In _ _) Hs)).
  apply negb_true_iff, bool_decide_eq_false in Hgood.
  destruct s as [| y t]; cbn in *; [apply not_elem_of_nil |].
  case_decide; [done |]. apply not_elem_of_cons. by split.
Qed.

Lemma c3_size_live seqs : c3_size (List.filter nonempty seqs) = c3_size seqs.
Proof.
  induction seqs as [| s seqs IH]; [done |].
  destruct s as [| x t]; cbn [List.filter nonempty]; [exact IH |].
  unfold c3_size in *. cbn. by rewrite IH.
Qed.

Lemma c3_drop_length c s : length (c3_drop c s) <= length s.
Proof. destruct s as [| x t]; cbn; [lia |]. case_decide; cbn; lia. Qed.

Lemma c3_size_drop_le c seqs : c3_size (c3_drop c <$> seqs) <= c3_size seqs.
Proof.
  unfold c3_size. induction seqs as [| s seqs IH]; cbn; [lia |].
  pose proof (c3_drop_length c s). lia.
Qed.

(** Dropping a class that heads a sequence makes the sequences smaller. *)
Lemma c3_size_drop_lt c seqs :
  c ∈ c3_heads seqs -> c3_size (c3_drop c <$> seqs) < c3_size seqs.
Proof.
  unfold c3_heads. intros (s & Hs & Hhead)%list_elem_of_omap.
  induction seqs as [| s' seqs IH]; [by apply not_elem_of_nil in Hs |].
  apply elem_of_cons in Hs as [<- | Hs].
  - pose proof (c3_size_drop_le c seqs) as Hle. destruct s as [| x t]; [done |].
    injection Hhead as ->. unfold c3_size in *. cbn. rewrite decide_True by done. lia.
  - pose proof (c3_drop_length c s'). specialize (IH Hs). unfold c3_size in *. cbn. lia.
Qed.

(** The fuel of [linearise] never runs out: any larger fuel gives the same
    answer, be it an MRO or the refusal of the bases. *)
Lemma c3_merge_fuel fuel fuel' seqs :
  c3_size seqs < fuel -> c3_size seqs < fuel' ->
  c3_merge fuel seqs = c3_merge fuel' seqs.
Proof.
  revert fuel' seqs. induction fuel as [| fuel IH]; intros fuel' seqs Hfuel Hfuel'; [lia |].
  destruct fuel' as [| fuel']; [lia |]. cbn [c3_merge].
  pose proof (c3_size_live seqs) as Hlive.
  destruct (List.filter nonempty seqs) as [| s0 live] eqn:Heq; [done |].
  destruct (List.find _ _) as [c |] eqn:Hfind; [| done].
  apply find_some in Hfind as [Hc%list_elem_of_In _].
  apply c3_size_drop_lt in Hc. rewrite (IH fuel'); [done | lia | lia].
Qed.

(** The merge takes its classes from the sequences. *)
Lemma c3_merge_elem_of fuel seqs r x :
  c3_merge fuel seqs = Some r -> x ∈ r -> exists s, s ∈ seqs /\ x ∈ s.
Proof.
  revert seqs r. induction fuel as [| fuel IH]; intros seqs r Hmerge Hx; [done |].
  apply c3_merge_step in Hmerge as [[_ ->] | (c & r' & -> & Hc & Hgood & Hrec)].
  { by apply not_elem_of_nil in Hx. }
  apply elem_of_cons in Hx as [-> | Hx].
  - unfold c3_heads in Hc. apply list_elem_of_omap in Hc as (s & Hs & Hhead).
    apply live_elem_of in Hs as [Hs _]. exists s. split; [done |].
    by apply head_Some_elem_of.
  - destruct (IH _ _ Hrec Hx) as (s' & Hs' & Hxs').
    apply list_elem_of_fmap in Hs' as (s & -> & Hs).
    apply live_elem_of in Hs as [Hs _]. exists s. split; [done |].
    by apply c3_drop_elem_of in Hxs'.
Qed.

(** The merge keeps the order of every sequence. *)
Lemma c3_merge_sublist fuel seqs r s :
  c3_merge fuel seqs = Some r -> s ∈ seqs -> s `sublist_of` r.
Proof.
  revert seqs r s. induction fuel as [| fuel IH]; intros seqs r s Hmerge Hs; [done |].
  destruct s as [| y t]; [apply sublist_nil_l |].
  apply c3_merge_step in Hmerge as [[Hlive ->] | (c & r' & -> & Hc & Hgood & Hrec)].
  { assert (Hin : (y :: t) ∈ List.filter nonempty seqs) by by apply live_elem_of.
    rewrite Hlive in Hin. by apply not_elem_of_nil in Hin. }
  assert (Hdrop : c3_drop c (y :: t) `sublist_of` r').
  { apply (IH _ _ _ Hrec). apply list_elem_of_fmap_2. by apply live_elem_of. }
  cbn in Hdrop. case_decide; subst.
  - by apply sublist_skip.
  - by apply sublist_cons.
Qed.

(** No class comes twice out of the merge. *)
Lemma c3_merge_NoDup fuel seqs r : c3_merge fuel seqs = Some r -> NoDup r.
Proof.
  revert seqs r. induction fuel as [| fuel IH]; intros seqs r Hmerge; [done |].
  apply c3_merge_step in Hmerge as [[_ ->] | (c & r' & -> & Hc & Hgood & Hrec)].
  { apply NoDup_nil_2. }
  apply NoDup_cons. split; [| by apply (IH _ _ Hrec)].
  intros Hin. destruct (c3_merge_elem_of _ _ _ _ Hrec Hin) as (s' & Hs' & Hcs').
  apply list_elem_of_fmap in Hs' as (s & -> & Hs).
  by apply (c3_good_drop _ _ _ Hgood Hs).
Qed.
End C3Facts.

(** ** Class tables *)

Section LookupFacts.
Context {world : Type}.
Implicit Types (ct : class_table world) (k : pyclass world) (l : list ident).

Lemma dict_lookup_insert_ne ct n k c m :
  n <> c -> dict_lookup (<[n := k]> ct) c m = dict_lookup ct c m.
Proof. intros Hne. unfold dict_lookup. by rewrite lookup_insert_ne. Qed.

Lemma dict_lookup_insert_eq ct n k m :
  dict_lookup (<[n := k]> ct) n m = cls_dict k !! m.
Proof. unfold dict_lookup. by rewrite lookup_insert_eq. Qed.

Lemma dict_lookup_Some ct c m f :
  dict_lookup ct c m = Some f <-> exists k, ct !! c = Some k /\ cls_dict k !! m = Some f.
Proof.
  unfold dict_lookup. destruct (ct !! c) as [k |]; cbn.
  - split; [by exists k | by intros (k' & [= <-] & ?)].
  - split; [done | by intros (k' & ? & ?)].
Qed.

Lemma mro_definer_insert_fresh ct n k l m :
  n ∉ l -> mro_definer (<[n := k]> ct) l m = mro_definer ct l m.
Proof.
  induction l as [| c l IH]; [done |]. intros [Hc Hl]%not_elem_of_cons.
  cbn. rewrite dict_lookup_insert_ne by done. by rewrite IH.
Qed.

(** Two tables whose dictionaries agree resolve alike. *)
Lemma mro_definer_ext ct ct' l m :
  (forall c, dict_lookup ct c m = dict_lookup ct' c m) ->
  mro_definer ct l m = mro_definer ct' l m.
Proof.
  intros Hsame. induction l as [| c l IH]; [done |]. cbn. by rewrite Hsame, IH.
Qed.

Lemma mro_lookup_definer ct l m :
  mro_lookup ct l m = mro_definer ct l m ≫= fun d => dict_lookup ct d m.
Proof.
  induction l as [| c l IH]; [done |]. cbn.
  destruct (dict_lookup ct c m) eqn:Hc; cbn; [by rewrite Hc | done].
Qed.

Lemma mro_definer_Some ct l m d :
  mro_definer ct l m = Some d -> d ∈ l /\ is_Some (dict_lookup ct d m).
Proof.
  induction l as [| c l IH]; [done |]. cbn.
  destruct (dict_lookup ct c m) eqn:Hc.
  - intros [= <-]. split; [apply list_elem_of_here | by rewrite Hc].
  - intros [Hd Hf]%IH. split; [by apply list_elem_of_further | done].
Qed.

(** Resolution goes down to a part of the MRO that keeps its order and
    holds the class found. *)
Lemma mro_definer_sublist ct l1 l2 m d :
  l1 `sublist_of` l2 -> NoDup l2 ->
  mro_definer ct l2 m = Some d -> d ∈ l1 ->
  mro_definer ct l1 m = Some d.
Proof.
  induction 1 as [| c l1 l2 Hsub IH | c l1 l2 Hsub IH]; intros Hnodup Hdef Hd.
  - by apply not_elem_of_nil in Hd.
  - apply NoDup_cons in Hnodup as [_ Hnodup]. cbn in *.
    destruct (dict_lookup ct c m) eqn:Hc; [done |].
    apply IH; [done | done |].
    apply elem_of_cons in Hd as [-> | Hd]; [| done].
    apply mro_definer_Some in Hdef as [_ [f Hf]]. congruence.
  - apply NoDup_cons in Hnodup as [Hc Hnodup]. cbn in Hdef.
    destruct (dict_lookup ct c m) eqn:Hcm; [| by apply IH].
    injection Hdef as <-. exfalso. apply Hc. by eapply elem_of_sublist.
Qed.
End LookupFacts.

Section ClassCreation.
Context {world : Type}.
Implicit Types (ct : class_table world) (k : pyclass world) (cd : classdef world).

Lemma class_stmt_inv ct cd ct' :
  class_stmt ct cd = inr ct' ->
  let bases := effective_bases (cd_bases cd) in
  let seqs := (mro_of ct <$> bases) ++ [bases] in
  exists r,
    ct !! cd_name cd = None /\
    (forall b, b ∈ bases -> is_Some (ct !! b)) /\
    c3_merge (c3_fuel seqs) seqs = Some r /\
    ct' = <[cd_name cd := new_class ct cd (cd_name cd :: r)]> ct.
Proof.
  intros Hstmt bases seqs. unfold class_stmt, linearise in Hstmt.
  cbv zeta in Hstmt. fold bases seqs in Hstmt.
  destruct (ct !! cd_name cd) eqn:Hfresh; [done |].
  destruct (List.find _ bases) eqn:Hfind; [done |].
  destruct (c3_merge (c3_fuel seqs) seqs) as [r |] eqn:Hmerge; [| done].
  cbn in Hstmt. injection Hstmt as <-.
  exists r. repeat split; try done.
  intros b Hb. apply list_elem_of_In in Hb.
  apply (find_none _ _ Hfind) in Hb. apply bool_decide_eq_false in Hb.
  by apply not_eq_None_Some.
Qed.

Lemma builtins_lookup c k :
  @builtins world !! c = Some k ->
  (c = "Exception" /\ k = exception_class) \/
  (c = "BaseException" /\ k = base_exception_class) \/
  (c = "object" /\ k = object_class).
Proof.
  unfold builtins. intros Hk.
  apply lookup_insert_Some in Hk as [[<- <-] | [_ Hk]]; [by left |].
  apply lookup_insert_Some in Hk as [[<- <-] | [_ Hk]]; [by right; left |].
  apply lookup_singleton_Some in Hk as [<- <-]. by right; right.
Qed.

Lemma builtins_defined c :
  c ∈ ["Exception"; "BaseException"; "object"] -> is_Some (@builtins world !! c).
Proof.
  intros Hc. unfold builtins.
  repeat (apply elem_of_cons in Hc as [-> | Hc]); [| | | by apply not_elem_of_nil in Hc].
  - rewrite lookup_insert_eq. by eexists.
  - rewrite lookup_insert_ne, lookup_insert_eq by done. by eexists.
  - rewrite !lookup_insert_ne, lookup_singleton_eq by done. by eexists.
Qed.

Lemma well_formed_builtins : well_formed (@builtins world).
Proof.
  split.
  - intros c k x Hk Hx. apply builtins_defined.
    destruct (builtins_lookup c k Hk) as [[-> ->] | [[-> ->] | [-> ->]]]; cbn in Hx.
    + done.
    + by apply list_elem_of_further.
    + by do 2 apply list_elem_of_further.
  - intros c k Hk.
    by destruct (builtins_lookup c k Hk) as [[-> ->] | [[-> ->] | [-> ->]]].
  - intros c k Hk.
    destruct (builtins_lookup c k Hk) as [[-> ->] | [[-> ->] | [-> ->]]];
      apply (bool_decide_unpack _); vm_compute; exact I.
  - intros c k d kd _ _ Hkd Habc.
    by destruct (builtins_lookup d kd Hkd) as [[-> ->] | [[-> ->] | [-> ->]]].
  - intros c k m d kd f _ _ Hkd Habc.
    by destruct (builtins_lookup d kd Hkd) as [[-> ->] | [[-> ->] | [-> ->]]].
Qed.

(** The classes of the new MRO, the new class apart, are those of the MRO
    of a base. *)
Lemma merged_from_base ct (bases : list ident) fuel r x :
  well_formed ct ->
  (forall b, b ∈ bases -> is_Some (ct !! b)) ->
  c3_merge fuel ((mro_of ct <$> bases) ++ [bases]) = Some r ->
  x ∈ r ->
  exists b kb, b ∈ bases /\ ct !! b = Some kb /\ x ∈ cls_mro kb.
Proof.
  intros Hwf Hbases Hmerge Hx.
  destruct (c3_merge_elem_of _ _ _ _ Hmerge Hx) as (s & Hs & Hxs).
  apply elem_of_app in Hs as [Hs | Hs].
  - apply list_elem_of_fmap in Hs as (b & -> & Hb).
    destruct (Hbases b Hb) as [kb Hkb]. exists b, kb. repeat split; try done.
    unfold mro_of in Hxs. by rewrite Hkb in Hxs.
  - apply list_elem_of_singleton in Hs as ->.
    destruct (Hbases x Hxs) as [kx Hkx]. exists x, kx. repeat split; try done.
    apply head_Some_elem_of. by apply (wf_head ct Hwf).
Qed.
End ClassCreation.

Section ClassCreationKeeps.
Context {world : Type}.
Implicit Types (ct : class_table world) (k : pyclass world) (cd : classdef world).

Lemma abstract_names_elem_of (d : gmap ident (pyfunction world)) m f :
  d !! m = Some f -> isabstractmethod f = true -> m ∈ abstract_names d.
Proof.
  intros Hm Hf. unfold abstract_names. apply elem_of_dom. exists f.
  by apply map_lookup_filter_Some.
Qed.

Lemma derived_abcmeta_base ct declared (bases : list ident) b kb :
  b ∈ bases -> ct !! b = Some kb -> cls_abcmeta kb = true ->
  derived_abcmeta ct declared bases = true.
Proof.
  intros Hb Hkb Habc. unfold derived_abcmeta. apply orb_true_iff. right.
  apply existsb_exists. exists b. split; [by apply list_elem_of_In |].
  by rewrite Hkb.
Qed.

Lemma class_stmt_well_formed ct cd ct' :
  well_formed ct -> class_stmt ct cd = inr ct' -> well_formed ct'.
Proof.
  intros Hwf Hstmt.
  destruct (class_stmt_inv _ _ _ Hstmt) as (r & Hfresh & Hbases & Hmerge & ->).
  set (n := cd_name cd) in *. set (bases := effective_bases (cd_bases cd)) in *.
  set (K := new_class ct cd (n :: r)).
  assert (Hr : forall x, x ∈ r -> is_Some (ct !! x)).
  { intros x Hx.
    destruct (merged_from_base _ _ _ _ _ Hwf Hbases Hmerge Hx) as (b & kb & _ & Hkb & Hxb).
    by apply (wf_closed ct Hwf b kb). }
  assert (Hnr : n ∉ r).
  { intros [kn Hkn]%Hr. congruence. }
  assert (Hold : forall c k, ct !! c = Some k -> n ∉ cls_mro k).
  { intros c k Hk [kn Hkn]%(wf_closed ct Hwf c k); [congruence | done]. }
  assert (Habc : forall c k d kd,
    <[n := K]> ct !! c = Some k -> d ∈ cls_mro k -> <[n := K]> ct !! d = Some kd ->
    cls_abcmeta kd = true -> cls_abcmeta k = true).
  { intros c k d kd Hk Hd Hkd Hkdabc.
    apply lookup_insert_Some in Hk as [[<- <-] | [Hne Hk]].
    - apply lookup_insert_Some in Hkd as [[<- <-] | [Hdn Hkd]]; [done |].
      cbn in Hd. apply elem_of_cons in Hd as [-> | Hd]; [done |].
      destruct (merged_from_base _ _ _ _ _ Hwf Hbases Hmerge Hd) as (b & kb & Hb & Hkb & Hdb).
      apply (derived_abcmeta_base _ _ _ b kb); [done | done |].
      by apply (wf_abc ct Hwf b kb d kd).
    - apply lookup_insert_Some in Hkd as [[<- <-] | [Hdn Hkd]].
      + by apply Hold in Hk.
      + by apply (wf_abc ct Hwf c k d kd). }
  split; [| | | exact Habc |].
  - intros c k x Hk Hx. apply lookup_insert_is_Some'.
    apply lookup_insert_Some in Hk as [[<- <-] | [Hne Hk]].
    + cbn in Hx. apply elem_of_cons in Hx as [-> | Hx]; [by left | right; by apply Hr].
    + right. by apply (wf_closed ct Hwf c k).
  - intros c k Hk. apply lookup_insert_Some in Hk as [[<- <-] | [Hne Hk]]; [done |].
    by apply (wf_head ct Hwf).
  - intros c k Hk. apply lookup_insert_Some in Hk as [[<- <-] | [Hne Hk]].
    + cbn. apply NoDup_cons. split; [done |]. by apply (c3_merge_NoDup _ _ _ Hmerge).
    + by apply (wf_nodup ct Hwf c k).
  - intros c k m d kd f Hk Hdef Hkd Hkdabc Hf Hfabs.
    apply lookup_insert_Some in Hk as [[<- <-] | [Hne Hk]].
    + assert (HK : derived_abcmeta ct (cd_abcmeta cd) bases = true).
      { apply mro_definer_Some in Hdef as [Hd _].
        by apply (Habc n K d kd); [apply lookup_insert_eq | | |]. }
      unfold K, new_class. fold bases n. cbn [cls_abstractmethods]. rewrite HK.
      unfold abc_abstracts. apply elem_of_union.
      cbn [cls_mro K new_class mro_definer] in Hdef.
      rewrite dict_lookup_insert_eq in Hdef. cbn [cls_dict K new_class] in Hdef.
      destruct (namespace (cd_body cd) !! m) as [g |] eqn:Hown.
      * left. injection Hdef as <-. rewrite lookup_insert_eq in Hkd.
        injection Hkd as <-. cbn in Hf. rewrite Hown in Hf. injection Hf as ->.
        by apply (abstract_names_elem_of _ _ f).
      * right. rewrite mro_definer_insert_fresh in Hdef by done.
        pose proof (mro_definer_Some _ _ _ _ Hdef) as [Hd _].
        assert (Hdn : n <> d) by (intros <-; done).
        rewrite lookup_insert_ne in Hkd by done.
        destruct (merged_from_base _ _ _ _ _ Hwf Hbases Hmerge Hd) as (b & kb & Hb & Hkb & Hdb).
        assert (Hbn : n <> b) by (intros <-; congruence).
        assert (Hsub : cls_mro kb `sublist_of` r).
        { apply (c3_merge_sublist _ _ _ _ Hmerge). apply elem_of_app. left.
          apply list_elem_of_fmap. exists b. split; [| done].
          unfold mro_of. by rewrite Hkb. }
        pose proof (mro_definer_sublist _ _ _ _ _ Hsub
                      (c3_merge_NoDup _ _ _ Hmerge) Hdef Hdb) as Hdefb.
        pose proof (wf_abstract ct Hwf b kb m d kd f Hkb Hdefb Hkd Hkdabc Hf Hfabs) as Hmb.
        apply elem_of_union_list.
        eexists. split; [apply list_elem_of_fmap_2, Hb |].
        apply elem_of_filter. split.
        -- unfold still_abstract, getattr, mro_of. rewrite lookup_insert_eq.
           cbn [cls_mro]. rewrite mro_lookup_definer. cbn [mro_definer].
           rewrite dict_lookup_insert_eq. cbn [cls_dict]. rewrite Hown.
           rewrite mro_definer_insert_fresh by done. rewrite Hdef. cbn.
           rewrite dict_lookup_insert_ne by done.
           assert (Hdm : dict_lookup ct d m = Some f) by (apply dict_lookup_Some; eauto).
           by rewrite Hdm.
        -- unfold abstractmethods_of. rewrite lookup_insert_ne by done. by rewrite Hkb.
    + rewrite mro_definer_insert_fresh in Hdef by by apply (Hold c k).
      pose proof (mro_definer_Some _ _ _ _ Hdef) as [Hd _].
      assert (Hdn : n <> d) by (intros <-; by apply (Hold c k) in Hd).
      rewrite lookup_insert_ne in Hkd by done.
      by apply (wf_abstract ct Hwf c k m d kd f).
Qed.

Lemma exec_module_well_formed ct (cds : list (classdef world)) ct' :
  well_formed ct -> exec_module ct cds = inr ct' -> well_formed ct'.
Proof.
  revert ct. induction cds as [| cd cds IH]; intros ct Hwf Hexec; cbn in Hexec.
  - by injection Hexec as <-.
  - destruct (class_stmt ct cd) as [e | ct1] eqn:Hstmt; [done |].
    apply (IH ct1); [| done]. by apply (class_stmt_well_formed ct cd).
Qed.
End ClassCreationKeeps.

(** ** The abstract methods of base.py *)

Section BasePy.
Context {world : Type}.
Implicit Types (ct : class_table world) (cd : classdef world).

Lemma exec_module_app ct (cds1 cds2 : list (classdef world)) ct' :
  exec_module ct (cds1 ++ cds2) = inr ct' ->
  exists ct1, exec_module ct cds1 = inr ct1 /\ exec_module ct1 cds2 = inr ct'.
Proof.
  revert ct. induction cds1 as [| cd cds1 IH]; intros ct Hexec; cbn in *.
  - by exists ct.
  - destruct (class_stmt ct cd) as [e | ct1]; [done |]. by apply IH.
Qed.




Lemma class_stmt_extends ct cd ct' : class_stmt ct cd = inr ct' -> ct ⊆ ct'.
Proof.
  intros Hstmt. destruct (class_stmt_inv _ _ _ Hstmt) as (r & Hfresh & _ & _ & ->).
  by apply insert_subseteq.
Qed.

Lemma exec_module_extends ct (cds : list (classdef world)) ct' :
  exec_module ct cds = inr ct' -> ct ⊆ ct'.
Proof.
  revert ct. induction cds as [| cd cds IH]; intros ct Hexec; cbn in Hexec.
  - by injection Hexec as <-.
  - destruct (class_stmt ct cd) as [e | ct1] eqn:Hstmt; [done |].
    etrans; [by apply (class_stmt_extends ct cd) | by apply IH].
Qed.
End BasePy.

(** ** Instantiating an abstract class *)



Lemma demo_classes_run :
  exec_module builtins (Demo.seal ++ base_py ++ Demo.project) = inr Demo.classes.
Proof.
  unfold Demo.classes.
  destruct (exec_module builtins (Demo.seal ++ base_py ++ Demo.project)) as [e | ct] eqn:Hrun;
    [| reflexivity].
  assert (Hok : match exec_module builtins (Demo.seal ++ base_py ++ Demo.project) with
                | inr _ => true
                | inl _ => false
                end = true) by (vm_compute; reflexivity).
  rewrite Hrun in Hok. discriminate Hok.
Qed.




(** ** Subclasses with one base *)

(** The statements on [__call__] above are about objects whose class
    resolves [__call__] and the hooks in a given way.  This is what a class
    statement with one base gives: the class has what its body defines, and
    for the rest what its base has. *)

Section OneBase.
Context {world : Type}.
Implicit Types (ct : class_table world) (k : pyclass world) (cd : classdef world).

Lemma c3_merge_single fuel (t : list ident) :
  NoDup t -> length t < fuel -> c3_merge fuel [t] = Some t.
Proof.
  revert fuel. induction t as [| x t IH]; intros fuel Hnodup Hfuel.
  - destruct fuel; [lia | done].
  - destruct fuel as [| fuel]; [cbn in Hfuel; lia |].
    apply NoDup_cons in Hnodup as [Hx Hnodup].
    assert (Hgood : c3_good [x :: t] x = true).
    { unfold c3_good, in_tail. cbn. by rewrite bool_decide_eq_false_2. }
    assert (Hdrop : c3_drop x <$> [x :: t] = [t]).
    { cbn. by rewrite decide_True. }
    cbn [c3_merge List.filter nonempty].
    change (c3_heads [x :: t]) with [x]. cbn [List.find]. rewrite Hgood, Hdrop.
    rewrite IH; [done | done | cbn in Hfuel; lia].
Qed.

(** An empty sequence plays no part in the merge. *)
Lemma c3_merge_nil_r fuel (seqs : list (list ident)) :
  c3_merge fuel (seqs ++ [[]]) = c3_merge fuel seqs.
Proof.
  destruct fuel as [| fuel]; [done |]. cbn [c3_merge].
  by rewrite List.filter_app, app_nil_r.
Qed.

Lemma c3_merge_one_base (b : ident) (t : list ident) :
  NoDup (b :: t) ->
  c3_merge (c3_fuel [b :: t; [b]]) [b :: t; [b]] = Some (b :: t).
Proof.
  intros [Hb Hnodup]%NoDup_cons.
  assert (Hgood : c3_good [b :: t; [b]] b = true).
  { unfold c3_good, in_tail. cbn. rewrite bool_decide_eq_false_2 by done.
    by rewrite bool_decide_eq_false_2 by apply not_elem_of_nil. }
  assert (Hdrop : c3_drop b <$> [b :: t; [b]] = [t] ++ [[]]).
  { cbn. by rewrite !decide_True. }
  unfold c3_fuel, c3_size. cbn [foldr c3_merge List.filter nonempty].
  change (c3_heads [b :: t; [b]]) with [b; b]. cbn [List.find]. rewrite Hgood, Hdrop.
  rewrite c3_merge_nil_r, c3_merge_single; [done | done | cbn; lia].
Qed.

Lemma mro_lookup_insert_fresh ct n k (l : list ident) m :
  n ∉ l -> mro_lookup (<[n := k]> ct) l m = mro_lookup ct l m.
Proof.
  induction l as [| c l IH]; [done |]. intros [Hc Hl]%not_elem_of_cons.
  cbn. rewrite dict_lookup_insert_ne by done. by rewrite IH.
Qed.

(** A class statement leaves the classes that were there as they were. *)
Lemma class_stmt_getattr_old ct cd ct' c m :
  well_formed ct -> class_stmt ct cd = inr ct' -> is_Some (ct !! c) ->
  getattr ct' c m = getattr ct c m.
Proof.
  intros Hwf Hstmt [k Hk].
  destruct (class_stmt_inv _ _ _ Hstmt) as (r & Hfresh & _ & _ & ->).
  assert (Hne : cd_name cd <> c) by (intros <-; congruence).
  unfold getattr, mro_of. rewrite lookup_insert_ne by done. rewrite Hk.
  apply mro_lookup_insert_fresh.
  intros [kn Hkn]%(wf_closed ct Hwf c k); [congruence | done].
Qed.

Lemma exec_module_getattr_old ct (cds : list (classdef world)) ct' c m :
  well_formed ct -> exec_module ct cds = inr ct' -> is_Some (ct !! c) ->
  getattr ct' c m = getattr ct c m.
Proof.
  revert ct. induction cds as [| cd cds IH]; intros ct Hwf Hexec Hc; cbn in Hexec.
  - by injection Hexec as <-.
  - destruct (class_stmt ct cd) as [e | ct1] eqn:Hstmt; [done |].
    rewrite (IH ct1); [by apply (class_stmt_getattr_old ct cd) | | done |].
    + by apply (class_stmt_well_formed ct cd).
    + destruct (class_stmt_inv _ _ _ Hstmt) as (r & _ & _ & _ & ->).
      apply lookup_insert_is_Some'. by right.
Qed.

(** A new class has what its body defines. *)
Lemma class_stmt_getattr_own ct cd ct' m f :
  class_stmt ct cd = inr ct' ->
  namespace (cd_body cd) !! m = Some f ->
  getattr ct' (cd_name cd) m = Some f.
Proof.
  intros Hstmt Hm.
  destruct (class_stmt_inv _ _ _ Hstmt) as (r & _ & _ & _ & ->).
  unfold getattr, mro_of. rewrite lookup_insert_eq. cbn [cls_mro new_class mro_lookup].
  rewrite dict_lookup_insert_eq. cbn [cls_dict new_class]. by rewrite Hm.
Qed.

(** With one base, it has from that base what its body does not define. *)
Lemma class_stmt_getattr_inherited ct cd ct' b m :
  well_formed ct -> class_stmt ct cd = inr ct' ->
  cd_bases cd = [b] ->
  namespace (cd_body cd) !! m = None ->
  getattr ct' (cd_name cd) m = getattr ct b m.
Proof.
  intros Hwf Hstmt Hbases Hm.
  destruct (class_stmt_inv _ _ _ Hstmt) as (r & Hfresh & Hexist & Hmerge & ->).
  rewrite Hbases in Hexist, Hmerge. cbn [effective_bases fmap list_fmap app] in Hexist, Hmerge.
  destruct (Hexist b (list_elem_of_here _ _)) as [kb Hkb].
  assert (Hr : r = cls_mro kb).
  { unfold mro_of in Hmerge. rewrite Hkb in Hmerge.
    pose proof (wf_head ct Hwf b kb Hkb) as Hhead.
    pose proof (wf_nodup ct Hwf b kb Hkb) as Hnodup.
    destruct (cls_mro kb) as [| b' t]; [done |]. injection Hhead as ->.
    rewrite c3_merge_one_base in Hmerge by done. by injection Hmerge as <-. }
  subst r. unfold getattr at 1, mro_of at 1. rewrite lookup_insert_eq.
  cbn [cls_mro new_class mro_lookup]. rewrite dict_lookup_insert_eq.
  cbn [cls_dict new_class]. rewrite Hm.
  rewrite mro_lookup_insert_fresh.
  - unfold getattr, mro_of. by rewrite Hkb.
  - intros [kn Hkn]%(wf_closed ct Hwf b kb); [congruence | done].
Qed.
End OneBase.

Section Subclasses.
Context {world : Type}.
Implicit Types (ct : class_table world) (cd : classdef world).

Lemma class_stmt_lookup_old ct cd ct' c :
  class_stmt ct cd = inr ct' -> is_Some (ct !! c) -> is_Some (ct' !! c).
Proof.
  intros Hstmt Hc. destruct (class_stmt_inv _ _ _ Hstmt) as (r & _ & _ & _ & ->).
  apply lookup_insert_is_Some'. by right.
Qed.

Lemma exec_module_lookup_old ct (cds : list (classdef world)) ct' c :
  exec_module ct cds = inr ct' -> is_Some (ct !! c) -> is_Some (ct' !! c).
Proof.
  revert ct. induction cds as [| cd cds IH]; intros ct Hexec Hc; cbn in Hexec.
  - by injection Hexec as <-.
  - destruct (class_stmt ct cd) as [e | ct1] eqn:Hstmt; [done |].
    apply (IH ct1); [done |]. by apply (class_stmt_lookup_old ct cd).
Qed.

(** What a statement of a module defines is there when the module is done. *)
Lemma exec_module_defines ct0 (before after : list (classdef world)) cd ct m f :
  well_formed ct0 ->
  exec_module ct0 (before ++ cd :: after) = inr ct ->
  namespace (cd_body cd) !! m = Some f ->
  is_Some (ct !! cd_name cd) /\ getattr ct (cd_name cd) m = Some f.
Proof.
  intros Hwf Hexec Hm.
  apply exec_module_app in Hexec as (ct1 & Hbefore & Hexec). cbn in Hexec.
  destruct (class_stmt ct1 cd) as [e | ct2] eqn:Hstmt; [done |].
  pose proof (exec_module_well_formed _ _ _ Hwf Hbefore) as Hwf1.
  pose proof (class_stmt_well_formed _ _ _ Hwf1 Hstmt) as Hwf2.
  assert (Hnew : is_Some (ct2 !! cd_name cd)).
  { destruct (class_stmt_inv _ _ _ Hstmt) as (r & _ & _ & _ & ->).
    rewrite lookup_insert_eq. by eexists. }
  split; [by apply (exec_module_lookup_old ct2 after) |].
  rewrite (exec_module_getattr_old ct2 after ct); [| done | done | done].
  by apply (class_stmt_getattr_own ct1 cd).
Qed.

(** Once base.py has run, its four [__call__] are found on the classes
    that define them, whatever ran before and whatever runs after. *)
Lemma base_py_call_methods (pre post : list (classdef world)) ct c f :
  exec_module builtins (pre ++ base_py ++ post) = inr ct ->
  (c, f) ∈ call_methods_of_base_py ->
  is_Some (ct !! c) /\ getattr ct c "__call__" = Some f.
Proof.
  intros Hexec Hcf. unfold call_methods_of_base_py in Hcf. unfold base_py in Hexec.
  repeat (apply elem_of_cons in Hcf as [[= -> ->] | Hcf]);
    [| | | | by apply not_elem_of_nil in Hcf].
  - apply (exec_module_defines builtins (pre ++ [Component.decl])
             ([RunComponent.decl; HybridComponent.decl; Logger.decl] ++ post)
             ExperimentComponent.decl ct "__call__" _ well_formed_builtins);
      [| done]. by rewrite <- app_assoc.
  - apply (exec_module_defines builtins
             (pre ++ [Component.decl; ExperimentComponent.decl])
             ([HybridComponent.decl; Logger.decl] ++ post)
             RunComponent.decl ct "__call__" _ well_formed_builtins);
      [| done]. by rewrite <- app_assoc.
  - apply (exec_module_defines builtins
             (pre ++ [Component.decl; ExperimentComponent.decl; RunComponent.decl])
             ([Logger.decl] ++ post)
             HybridComponent.decl ct "__call__" _ well_formed_builtins);
      [| done]. by rewrite <- app_assoc.
  - apply (exec_module_defines builtins
             (pre ++ [Component.decl; ExperimentComponent.decl; RunComponent.decl;
                      HybridComponent.decl])
             post
             Logger.decl ct "__call__" _ well_formed_builtins);
      [| done]. by rewrite <- app_assoc.
Qed.

(** A class written [class C(B): ...] after base.py, with [B] one of the
    four classes that define [__call__] and no [__call__] in the body, runs
    the [__call__] of [B] and the methods of its body. *)
Lemma subclass_resolves (pre mid post : list (classdef world)) cd b call ct :
  exec_module builtins (pre ++ base_py ++ mid ++ cd :: post) = inr ct ->
  cd_bases cd = [b] ->
  (b, call) ∈ call_methods_of_base_py ->
  namespace (cd_body cd) !! "__call__" = None ->
  getattr ct (cd_name cd) "__call__" = Some call /\
  forall m f, namespace (cd_body cd) !! m = Some f -> getattr ct (cd_name cd) m = Some f.
Proof.
  intros Hexec Hbases Hb Hnocall.
  assert (Hsplit : pre ++ base_py ++ mid ++ cd :: post =
                   (pre ++ base_py ++ mid) ++ cd :: post) by by rewrite <- !app_assoc.
  split.
  - rewrite Hsplit in Hexec.
    apply exec_module_app in Hexec as (ct1 & Hbefore & Hexec). cbn in Hexec.
    destruct (class_stmt ct1 cd) as [e | ct2] eqn:Hstmt; [done |].
    pose proof (exec_module_well_formed _ _ _ well_formed_builtins Hbefore) as Hwf1.
    pose proof (class_stmt_well_formed _ _ _ Hwf1 Hstmt) as Hwf2.
    destruct (base_py_call_methods pre mid ct1 b call Hbefore Hb) as [_ Hcall].
    rewrite (exec_module_getattr_old ct2 post ct); [| done | done |].
    + by rewrite (class_stmt_getattr_inherited ct1 cd ct2 b).
    + destruct (class_stmt_inv _ _ _ Hstmt) as (r & _ & _ & _ & ->).
      rewrite lookup_insert_eq. by eexists.
  - intros m f Hm. rewrite Hsplit in Hexec.
    by apply (exec_module_defines builtins (pre ++ base_py ++ mid) post cd ct m f
                well_formed_builtins).
Qed.

(** So for every class written [class C(HybridComponent)] with the two
    hooks in its body, whatever the rest of the program, invoking an object
    of the class does what [HybridComponent.__call__] says. *)
Corollary hybrid_subclass_call (pre mid post : list (classdef world)) cd ct
    (on_experiment on_run : implementation world) (addr : nat) x (st : state world) n :
  exec_module builtins (pre ++ base_py ++ mid ++ cd :: post) = inr ct ->
  cd_bases cd = ["HybridComponent"] ->
  cd_body cd = [("_call_on_experiment", Foreign on_experiment);
                ("_call_on_run", Foreign on_run)] ->
  let self := PyObject (cd_name cd) addr in
  invoke ct (S (S n)) self (one_arg x) st =
  if is_instance ct x Experiment then
    hook_call on_experiment self "_call_on_experiment" (one_arg x) st
  else if is_instance ct x Run then
    hook_call on_run self "_call_on_run" (one_arg x) st
  else (Returned PyNone, st).
Proof.
  intros Hexec Hbases Hbody self.
  destruct (subclass_resolves pre mid post cd "HybridComponent" HybridComponent.__call__ ct
              Hexec Hbases) as [Hcall Hown].
  { unfold call_methods_of_base_py. do 2 apply list_elem_of_further. apply list_elem_of_here. }
  { by rewrite Hbody. }
  apply hybrid_component_call; [done | |]; apply Hown; by rewrite Hbody.
Qed.
End Subclasses.

(** * Further properties *)

(** ** How the argument of [__call__] is bound *)

Section CallBinding.
Context {world : Type} (ct : class_table world) (self : pyobj).

(** X1.  Each of the four [__call__] takes its argument by position or by
    keyword under the name of its parameter, [object] for the three
    components and [obj] for [Logger]: the keyword call runs as the
    positional one. *)
Theorem keyword_call_is_positional_call (call : pyfunction world) (name : ident) :
  (call, name) ∈ call_parameters_of_base_py ->
  getattr ct (type_of self) "__call__" = Some call ->
  forall (x : pyobj) (st : state world) (n : nat),
    invoke ct (S n) self (keyword_arg name x) st = invoke ct (S n) self (one_arg x) st.
Proof.
  intros Hin Hcall x st n. unfold call_parameters_of_base_py in Hin.
  repeat (apply elem_of_cons in Hin as [[= -> ->] | Hin]);
    [| | | | by apply not_elem_of_nil in Hin];
    by rewrite !(invoke_source _ _ _ _ _ _ _ Hcall).
Qed.

(** X2.  Any other argument list (none, two or more, a keyword under
    another name, a positional and a keyword) is a [TypeError] raised
    before anything is done: no hook is called and the state is as it
    was.  In particular [logger(object=x)] and [component(obj=x)] fail,
    the parameter being named differently in [Logger]. *)
Theorem other_arguments_are_refused (call : pyfunction world) (name : ident) :
  (call, name) ∈ call_parameters_of_base_py ->
  getattr ct (type_of self) "__call__" = Some call ->
  forall (args : arguments) (st : state world) (n : nat),
    (forall x, args <> one_arg x /\ args <> keyword_arg name x) ->
    invoke ct (S n) self args st = (Raised arity_error, st).
Proof.
  intros Hin Hcall args st n Hargs.
  assert (Hbind : forall body,
    run ct (call_method ct n) (def_self_1 name body self args) st = (Raised arity_error, st)).
  { intros body. destruct args as [[| x [| x' pos]] [| [k v] [| b kw]]]; try done.
    - cbn [def_self_1]. destruct (String.eqb k name) eqn:Hk; [| done].
      apply String.eqb_eq in Hk as ->. by destruct (Hargs v) as [_ []].
    - by destruct (Hargs x) as [[] _]. }
  unfold call_parameters_of_base_py in Hin.
  repeat (apply elem_of_cons in Hin as [[= -> ->] | Hin]);
    [| | | | by apply not_elem_of_nil in Hin];
    rewrite (invoke_source _ _ _ _ _ _ _ Hcall); apply Hbind.
Qed.
End CallBinding.

Lemma keyword_call_is_positional_call_witness :
  invoke Demo.classes 2 Demo.file_logger (keyword_arg "obj" Demo.a_run) Demo.start =
  invoke Demo.classes 2 Demo.file_logger (one_arg Demo.a_run) Demo.start.
Proof.
  apply (keyword_call_is_positional_call Demo.classes Demo.file_logger Logger.__call__ "obj").
  - unfold call_parameters_of_base_py. do 3 apply list_elem_of_further. apply list_elem_of_here.
  - vm_compute. reflexivity.
Defined.

Lemma other_arguments_are_refused_witness :
  invoke Demo.classes 2 Demo.file_logger (keyword_arg "object" Demo.a_run) Demo.start =
  (Raised arity_error, Demo.start).
Proof.
  apply (other_arguments_are_refused Demo.classes Demo.file_logger Logger.__call__ "obj").
  - unfold call_parameters_of_base_py. do 3 apply list_elem_of_further. apply list_elem_of_here.
  - vm_compute. reflexivity.
  - intros x. split; discriminate.
Defined.

(** ** What comes back from a dispatching [__call__] *)

(** X3.  [Logger.__call__] has no [return]: whatever [log_experiment] or
    [log_run] returns is dropped, and an invocation that returns, returns
    [None], for every argument list. *)
Theorem logger_returns_none {world : Type} (ct : class_table world) (self : pyobj)
    (log_experiment log_run : implementation world) :
  getattr ct (type_of self) "__call__" = Some Logger.__call__ ->
  getattr ct (type_of self) "log_experiment" = Some (Foreign log_experiment) ->
  getattr ct (type_of self) "log_run" = Some (Foreign log_run) ->
  forall (args : arguments) (st st' : state world) (n : nat) (v : pyobj),
    invoke ct (S (S n)) self args st = (Returned v, st') -> v = PyNone.
Proof.
  intros Hcall Hexp Hrun args st st' n v.
  destruct (logger_call_binding ct self Hcall args st n) as [-> | [x ->]]; [done |].
  rewrite (logger_call ct self log_experiment log_run Hcall Hexp Hrun).
  unfold drop_value, hook_call.
  destruct (is_instance ct x Experiment); [| destruct (is_instance ct x Run)].
  - destruct (log_experiment _ _ _) as [[v' | e |] w]; by intros [= <- _].
  - destruct (log_run _ _ _) as [[v' | e |] w]; by intros [= <- _].
  - by intros [= <- _].
Qed.

Lemma logger_returns_none_witness :
  (invoke Demo.classes 2 Demo.file_logger (one_arg Demo.a_run) Demo.start).1 = Returned PyNone.
Proof.
  destruct (invoke Demo.classes 2 Demo.file_logger (one_arg Demo.a_run) Demo.start)
    as [[v | e |] st'] eqn:Hrun; [| vm_compute in Hrun; discriminate Hrun ..].
  cbn. f_equal.
  apply (logger_returns_none Demo.classes Demo.file_logger
           (Demo.writes "logger: experiment") (Demo.writes "logger: run")
           eq_refl eq_refl eq_refl (one_arg Demo.a_run) Demo.start st' 0 v Hrun).
Defined.

(** X4.  A failure of [log_experiment] or [log_run] goes through
    [Logger.__call__] as it is: the same exception, the world as the method
    left it, the one call to the method as the only call made. *)
Theorem logger_propagates_failure {world : Type} (ct : class_table world) (self : pyobj)
    (log_experiment log_run : implementation world) :
  getattr ct (type_of self) "__call__" = Some Logger.__call__ ->
  getattr ct (type_of self) "log_experiment" = Some (Foreign log_experiment) ->
  getattr ct (type_of self) "log_run" = Some (Foreign log_run) ->
  forall (x : pyobj) (st : state world) (n : nat) (e : exn) (w' : world),
    (is_instance ct x Experiment = true ->
     log_experiment self (one_arg x) (st_world st) = (Raised e, w') ->
     invoke ct (S (S n)) self (one_arg x) st =
     (Raised e,
      State w' (st_trace st ++ [Called self "log_experiment" (one_arg x)]) (st_next st))) /\
    (is_instance ct x Experiment = false -> is_instance ct x Run = true ->
     log_run self (one_arg x) (st_world st) = (Raised e, w') ->
     invoke ct (S (S n)) self (one_arg x) st =
     (Raised e,
      State w' (st_trace st ++ [Called self "log_run" (one_arg x)]) (st_next st))).
Proof.
  intros Hcall Hexp Hrun x st n e w'.
  rewrite (logger_call ct self log_experiment log_run Hcall Hexp Hrun).
  unfold drop_value, hook_call. split.
  - intros -> Hraise. by rewrite Hraise.
  - intros -> -> Hraise. by rewrite Hraise.
Qed.

(** X5.  A failure of [_call_on_run] goes through the invocation as it is,
    under the [__call__] of [RunComponent] for every argument and under the
    one of [HybridComponent] for every Run that is not an Experiment. *)
Theorem run_component_propagates_failure {world : Type}
    (ct : class_table world) (self : pyobj) (on_run : implementation world) :
  getattr ct (type_of self) "_call_on_run" = Some (Foreign on_run) ->
  forall (x : pyobj) (st : state world) (n : nat) (e : exn) (w' : world),
    getattr ct (type_of self) "__call__" = Some RunComponent.__call__ \/
    (getattr ct (type_of self) "__call__" = Some HybridComponent.__call__ /\
     is_instance ct x Experiment = false /\ is_instance ct x Run = true) ->
    on_run self (one_arg x) (st_world st) = (Raised e, w') ->
    invoke ct (S (S n)) self (one_arg x) st =
    (Raised e,
     State w' (st_trace st ++ [Called self "_call_on_run" (one_arg x)]) (st_next st)).
Proof.
  intros Hhook x st n e w' Hcall Hraise.
  assert (Hr : invoke ct (S (S n)) self (one_arg x) st =
               hook_call on_run self "_call_on_run" (one_arg x) st).
  { destruct Hcall as [Hcall | (Hcall & HE & HR)].
    - by apply run_component_call.
    - by apply hybrid_component_call_run. }
  rewrite Hr. unfold hook_call. by rewrite Hraise.
Qed.

(** ** The classes of base.py in a larger program *)

Section Frame.
Context {world : Type}.
Implicit Types (ct small : class_table world) (cd : classdef world).

Lemma mro_of_mono small ct c :
  small ⊆ ct -> is_Some (small !! c) -> mro_of ct c = mro_of small c.
Proof.
  intros Hsub [k Hk]. unfold mro_of. by rewrite Hk, (lookup_weaken _ _ _ _ Hk Hsub).
Qed.

Lemma abstractmethods_of_mono small ct c :
  small ⊆ ct -> is_Some (small !! c) -> abstractmethods_of ct c = abstractmethods_of small c.
Proof.
  intros Hsub [k Hk]. unfold abstractmethods_of.
  by rewrite Hk, (lookup_weaken _ _ _ _ Hk Hsub).
Qed.

Lemma dict_lookup_mono small ct c m :
  small ⊆ ct -> is_Some (small !! c) -> dict_lookup ct c m = dict_lookup small c m.
Proof.
  intros Hsub [k Hk]. unfold dict_lookup. by rewrite Hk, (lookup_weaken _ _ _ _ Hk Hsub).
Qed.

Lemma mro_lookup_ext ct ct' (l : list ident) m :
  (forall c, c ∈ l -> dict_lookup ct c m = dict_lookup ct' c m) ->
  mro_lookup ct l m = mro_lookup ct' l m.
Proof.
  induction l as [| c l IH]; intros Hsame; [done |]. cbn.
  rewrite (Hsame c) by apply list_elem_of_here.
  rewrite IH; [done |]. intros c' Hc'. apply Hsame. by apply list_elem_of_further.
Qed.


(** A class of the smaller table resolves in the larger one as it does in
    the smaller. *)
Lemma getattr_mono small ct c m :
  well_formed small -> small ⊆ ct -> is_Some (small !! c) ->
  getattr ct c m = getattr small c m.
Proof.
  intros Hwf Hsub Hc. unfold getattr. rewrite (mro_of_mono small ct c Hsub Hc).
  apply mro_lookup_ext. intros c' Hc'. apply dict_lookup_mono; [done |].
  destruct Hc as [k Hk]. unfold mro_of in Hc'. rewrite Hk in Hc'.
  by apply (wf_closed small Hwf c k).
Qed.


(** The class a statement makes depends on the classes it names and on
    those of their MRO, not on what else the table holds. *)
Lemma new_class_mono small ct cd r :
  well_formed small -> small ⊆ ct ->
  let bases := effective_bases (cd_bases cd) in
  (forall b, b ∈ bases -> is_Some (small !! b)) ->
  c3_merge (c3_fuel ((mro_of small <$> bases) ++ [bases]))
           ((mro_of small <$> bases) ++ [bases]) = Some r ->
  new_class ct cd (cd_name cd :: r) = new_class small cd (cd_name cd :: r).
Proof.
  intros Hwf Hsub bases Hbases Hmerge. unfold new_class. fold bases.
  assert (Habc : derived_abcmeta ct (cd_abcmeta cd) bases =
                 derived_abcmeta small (cd_abcmeta cd) bases).
  { unfold derived_abcmeta. f_equal. clear Hmerge.
    induction bases as [| b bases' IH]; [done |]. cbn.
    destruct (Hbases b (list_elem_of_here _ _)) as [kb Hkb].
    rewrite Hkb, (lookup_weaken _ _ _ _ Hkb Hsub). f_equal.
    apply IH. intros b' Hb'. apply Hbases. by apply list_elem_of_further. }
  rewrite Habc. f_equal.
  destruct (derived_abcmeta small (cd_abcmeta cd) bases); [| done].
  unfold abc_abstracts. f_equal. f_equal.
  apply Forall_fmap_ext_1, Forall_forall. intros b Hb.
  assert (Hr : forall x, x ∈ r -> is_Some (small !! x)).
  { intros x Hx.
    destruct (merged_from_base _ _ _ _ _ Hwf Hbases Hmerge Hx) as (b' & kb & _ & Hkb & Hxb).
    by apply (wf_closed small Hwf b' kb). }
  set (k0 := PyClass bases true (cd_name cd :: r) (namespace (cd_body cd)) ∅).
  assert (Hdict : forall c m, c ∈ cd_name cd :: r ->
            dict_lookup (<[cd_name cd := k0]> ct) c m =
            dict_lookup (<[cd_name cd := k0]> small) c m).
  { intros c m Hc. unfold dict_lookup. destruct (decide (cd_name cd = c)) as [-> | Hne].
    - by rewrite !lookup_insert_eq.
    - rewrite !lookup_insert_ne by done.
      apply elem_of_cons in Hc as [-> | Hc]; [done |].
      destruct (Hr c Hc) as [kc Hkc]. by rewrite Hkc, (lookup_weaken _ _ _ _ Hkc Hsub). }
  assert (Hsame : forall m, still_abstract (<[cd_name cd := k0]> ct) (cd_name cd) m =
                            still_abstract (<[cd_name cd := k0]> small) (cd_name cd) m).
  { intros m. unfold still_abstract, getattr, mro_of. rewrite !lookup_insert_eq.
    cbn [cls_mro k0].
    by rewrite (mro_lookup_ext (<[cd_name cd := k0]> ct) (<[cd_name cd := k0]> small)
                  (cd_name cd :: r) m (fun c Hc => Hdict c m Hc)). }
  assert (Hfresh_b : abstractmethods_of (<[cd_name cd := k0]> ct) b =
                     abstractmethods_of (<[cd_name cd := k0]> small) b).
  { unfold abstractmethods_of. destruct (decide (cd_name cd = b)) as [-> | Hne].
    - by rewrite !lookup_insert_eq.
    - rewrite !lookup_insert_ne by done.
      destruct (Hbases b Hb) as [kb Hkb]. by rewrite Hkb, (lookup_weaken _ _ _ _ Hkb Hsub). }
  rewrite Hfresh_b. apply set_eq. intros m. rewrite !elem_of_filter. by rewrite Hsame.
Qed.

(** A class statement that succeeds in a table and in a larger one makes
    the same class in both. *)
Lemma class_stmt_mono small ct cd small' ct' :
  well_formed small -> small ⊆ ct ->
  class_stmt small cd = inr small' -> class_stmt ct cd = inr ct' ->
  small' ⊆ ct'.
Proof.
  intros Hwf Hsub Hsmall Hbig.
  destruct (class_stmt_inv _ _ _ Hsmall) as (r & _ & Hbases & Hmerge & ->).
  destruct (class_stmt_inv _ _ _ Hbig) as (r' & _ & _ & Hmerge' & ->).
  assert (Hseqs : mro_of ct <$> effective_bases (cd_bases cd) =
                  mro_of small <$> effective_bases (cd_bases cd)).
  { apply Forall_fmap_ext_1, Forall_forall. intros b Hb.
    by apply mro_of_mono; [| apply Hbases]. }
  rewrite Hseqs, Hmerge in Hmerge'. injection Hmerge' as <-.
  rewrite (new_class_mono small ct cd r Hwf Hsub Hbases Hmerge).
  by apply insert_mono.
Qed.

Lemma exec_module_mono small ct (cds : list (classdef world)) small' ct' :
  well_formed small -> small ⊆ ct ->
  exec_module small cds = inr small' -> exec_module ct cds = inr ct' ->
  small' ⊆ ct'.
Proof.
  revert small ct. induction cds as [| cd cds IH]; intros small ct Hwf Hsub Hsmall Hbig;
    cbn in Hsmall, Hbig.
  - injection Hsmall as <-. by injection Hbig as <-.
  - destruct (class_stmt small cd) as [e | small1] eqn:Hs; [done |].
    destruct (class_stmt ct cd) as [e | ct1] eqn:Hb; [done |].
    apply (IH small1 ct1); [| | done | done].
    + by apply (class_stmt_well_formed small cd).
    + by apply (class_stmt_mono small ct cd).
Qed.

Lemma base_classes_run : exec_module builtins base_py = inr (@base_classes world).
Proof.
  unfold base_classes.
  destruct (exec_module builtins base_py) as [e | ct] eqn:Hrun; [| reflexivity].
  assert (Hok : match @exec_module world builtins base_py with
                | inr _ => true
                | inl _ => false
                end = true) by (vm_compute; reflexivity).
  rewrite Hrun in Hok. discriminate Hok.
Qed.

Lemma well_formed_base_classes : well_formed (@base_classes world).
Proof. exact (exec_module_well_formed _ _ _ well_formed_builtins base_classes_run). Qed.
End Frame.

Lemma is_Some_true {A : Type} (o : option A) :
  match o with Some _ => true | None => false end = true -> is_Some o.
Proof. destruct o; [by eexists | done]. Qed.

Lemma base_classes_defined {world : Type} c :
  c ∈ class_names_of_base_py -> is_Some (@base_classes world !! c).
Proof.
  intros Hc. unfold class_names_of_base_py in Hc.
  repeat (apply elem_of_cons in Hc as [-> | Hc]);
    [| | | | | by apply not_elem_of_nil in Hc];
    apply is_Some_true; vm_compute; reflexivity.
Qed.

(** The table of a program that runs base.py holds the classes base.py
    makes on its own. *)
Lemma base_classes_in_program {world : Type}
    (pre post : list (classdef world)) (ct : class_table world) :
  exec_module builtins (pre ++ base_py ++ post) = inr ct -> base_classes ⊆ ct.
Proof.
  intros Hexec.
  apply exec_module_app in Hexec as (ct1 & Hpre & Hexec).
  apply exec_module_app in Hexec as (ct2 & Hbase & Hpost).
  etrans; [| by apply (exec_module_extends ct2 post)].
  apply (exec_module_mono builtins ct1 base_py base_classes ct2);
    [apply well_formed_builtins | by apply (exec_module_extends builtins pre)
     | apply base_classes_run | done].
Qed.

(** X6.  Whatever a program defines before and after base.py, the five
    classes come out the same.  Their MRO and abstract methods are these;
    in particular [HybridComponent] linearises with [ExperimentComponent]
    ahead of [RunComponent], and is abstract in the two hooks only, its own
    [__call__] standing for the one [Component] asks for. *)
Theorem base_py_classes_are_fixed {world : Type}
    (pre post : list (classdef world)) (ct : class_table world) :
  exec_module builtins (pre ++ base_py ++ post) = inr ct ->
  (fun c => (mro_of ct c, elements (abstractmethods_of ct c))) <$> class_names_of_base_py =
  [(["Component"; "object"], ["__call__"]);
   (["ExperimentComponent"; "Component"; "object"], ["_call_on_experiment"]);
   (["RunComponent"; "Component"; "object"], ["_call_on_run"]);
   (["HybridComponent"; "ExperimentComponent"; "RunComponent"; "Component"; "object"],
    ["_call_on_experiment"; "_call_on_run"]);
   (["Logger"; "Component"; "object"],
    ["__init__"; "_log_model"; "_log_metrics"; "_log_params"; "log_experiment"; "log_run"])].
Proof.
  intros Hexec. pose proof (base_classes_in_program pre post ct Hexec) as Hsub.
  transitivity ((fun c => (mro_of (@base_classes world) c,
                           elements (abstractmethods_of (@base_classes world) c)))
                  <$> class_names_of_base_py).
  - apply Forall_fmap_ext_1, Forall_forall. intros c Hc.
    pose proof (base_classes_defined (world := world) c Hc) as Hsome.
    by rewrite (mro_of_mono base_classes ct c Hsub Hsome),
               (abstractmethods_of_mono base_classes ct c Hsub Hsome).
  - vm_compute. reflexivity.
Qed.

Lemma base_py_classes_are_fixed_witness :
  (fun c => (mro_of Demo.classes c, elements (abstractmethods_of Demo.classes c)))
    <$> class_names_of_base_py =
  [(["Component"; "object"], ["__call__"]);
   (["ExperimentComponent"; "Component"; "object"], ["_call_on_experiment"]);
   (["RunComponent"; "Component"; "object"], ["_call_on_run"]);
   (["HybridComponent"; "ExperimentComponent"; "RunComponent"; "Component"; "object"],
    ["_call_on_experiment"; "_call_on_run"]);
   (["Logger"; "Component"; "object"],
    ["__init__"; "_log_model"; "_log_metrics"; "_log_params"; "log_experiment"; "log_run"])].
Proof.
  exact (base_py_classes_are_fixed Demo.seal Demo.project Demo.classes demo_classes_run).
Defined.

Lemma demo2_classes_run : exec_module builtins Demo2.program = inr Demo2.classes.
Proof.
  unfold Demo2.classes.
  destruct (exec_module builtins Demo2.program) as [e | ct] eqn:Hrun; [| reflexivity].
  assert (Hok : match exec_module builtins Demo2.program with
                | inr _ => true
                | inl _ => false
                end = true) by (vm_compute; reflexivity).
  rewrite Hrun in Hok. discriminate Hok.
Qed.

Lemma logger_propagates_failure_witness :
  invoke Demo2.classes 2 (PyObject "FlakyLogger" 0) (one_arg Demo.an_experiment) Demo.start =
    (Raised Demo.disk_full,
     State ["flaky: experiment"]
       [Called (PyObject "FlakyLogger" 0) "log_experiment" (one_arg Demo.an_experiment)] 0) /\
  invoke Demo2.classes 2 (PyObject "FlakyLogger" 0) (one_arg Demo.a_run) Demo.start =
    (Raised Demo.disk_full,
     State ["flaky: run"]
       [Called (PyObject "FlakyLogger" 0) "log_run" (one_arg Demo.a_run)] 0).
Proof.
  split.
  - apply (logger_propagates_failure Demo2.classes (PyObject "FlakyLogger" 0)
             (Demo.fails "flaky: experiment" Demo.disk_full)
             (Demo.fails "flaky: run" Demo.disk_full));
      vm_compute; reflexivity.
  - apply (logger_propagates_failure Demo2.classes (PyObject "FlakyLogger" 0)
             (Demo.fails "flaky: experiment" Demo.disk_full)
             (Demo.fails "flaky: run" Demo.disk_full));
      vm_compute; reflexivity.
Defined.

Lemma run_component_propagates_failure_witness :
  invoke Demo2.classes 2 (PyObject "FlakyTimer" 0) (one_arg Demo.a_run) Demo.start =
  (Raised Demo.disk_full,
   State ["flaky timer: run"]
     [Called (PyObject "FlakyTimer" 0) "_call_on_run" (one_arg Demo.a_run)] 0).
Proof.
  apply (run_component_propagates_failure Demo2.classes (PyObject "FlakyTimer" 0)
           (Demo.fails "flaky timer: run" Demo.disk_full));
    [vm_compute; reflexivity | left; vm_compute; reflexivity | vm_compute; reflexivity].
Defined.

(** ** Which subclasses are abstract *)

Section Abstractness.
Context {world : Type}.
Implicit Types (ct : class_table world) (k : pyclass world) (cd : classdef world).

(** The [__abstractmethods__] of a new class, read in the table that holds
    it. *)
Lemma class_stmt_abstractmethods ct cd ct' :
  class_stmt ct cd = inr ct' ->
  let bases := effective_bases (cd_bases cd) in
  abstractmethods_of ct' (cd_name cd) =
  if derived_abcmeta ct (cd_abcmeta cd) bases then
    abstract_names (namespace (cd_body cd)) ∪
    ⋃ ((fun b => filter (fun m => still_abstract ct' (cd_name cd) m = true)
                        (abstractmethods_of ct b)) <$> bases)
  else ∅.
Proof.
  intros Hstmt bases.
  destruct (class_stmt_inv _ _ _ Hstmt) as (r & Hfresh & Hbases & _ & ->).
  fold bases in Hbases. unfold abstractmethods_of at 1. rewrite lookup_insert_eq.
  unfold new_class at 1. fold bases. cbn [cls_abstractmethods].
  destruct (derived_abcmeta ct (cd_abcmeta cd) bases) eqn:Habc; [| done].
  unfold abc_abstracts. f_equal. f_equal.
  apply Forall_fmap_ext_1, Forall_forall. intros b Hb.
  set (k0 := PyClass bases true (cd_name cd :: r) (namespace (cd_body cd)) ∅).
  set (k1 := new_class ct cd (cd_name cd :: r)).
  assert (Hne : cd_name cd <> b).
  { intros Heq. destruct (Hbases b Hb) as [kb Hkb]. congruence. }
  assert (Hb0 : abstractmethods_of (<[cd_name cd := k0]> ct) b = abstractmethods_of ct b).
  { unfold abstractmethods_of. by rewrite lookup_insert_ne. }
  rewrite Hb0. apply set_eq. intros m. rewrite !elem_of_filter.
  assert (Hsame : still_abstract (<[cd_name cd := k0]> ct) (cd_name cd) m =
                  still_abstract (<[cd_name cd := k1]> ct) (cd_name cd) m);
    [| by rewrite Hsame].
  unfold still_abstract, getattr, mro_of. rewrite !lookup_insert_eq.
  assert (Hmro : cls_mro k1 = cls_mro k0) by done. rewrite Hmro.
  rewrite (mro_lookup_ext (<[cd_name cd := k0]> ct) (<[cd_name cd := k1]> ct) (cls_mro k0) m);
    [done |].
  intros c _. unfold dict_lookup. destruct (decide (cd_name cd = c)) as [-> | Hc].
  - by rewrite !lookup_insert_eq.
  - by rewrite !lookup_insert_ne.
Qed.

Lemma abstracts_are_abstract_builtins : abstracts_are_abstract (@builtins world).
Proof.
  intros c k m Hk Hm.
  destruct (builtins_lookup c k Hk) as [[-> ->] | [[-> ->] | [-> ->]]];
    by apply not_elem_of_empty in Hm.
Qed.

Lemma class_stmt_abstracts_are_abstract ct cd ct' :
  well_formed ct -> abstracts_are_abstract ct ->
  class_stmt ct cd = inr ct' -> abstracts_are_abstract ct'.
Proof.
  intros Hwf Hcomplete Hstmt c k m Hk Hm.
  pose proof (class_stmt_abstractmethods _ _ _ Hstmt) as Habs. cbv zeta in Habs.
  destruct (class_stmt_inv _ _ _ Hstmt) as (r & Hfresh & _ & _ & Hct').
  destruct (decide (cd_name cd = c)) as [<- | Hne].
  - unfold abstractmethods_of in Habs. rewrite Hk in Habs. rewrite Habs in Hm.
    destruct (derived_abcmeta _ _ _); [| by apply not_elem_of_empty in Hm].
    apply elem_of_union in Hm as [Hm | Hm].
    + unfold abstract_names in Hm. apply elem_of_dom in Hm as [f Hf].
      apply map_lookup_filter_Some in Hf as [Hf Hfabs]. cbn in Hfabs.
      unfold still_abstract. by rewrite (class_stmt_getattr_own _ _ _ _ _ Hstmt Hf).
    + apply elem_of_union_list in Hm as (X & HX & Hm).
      apply list_elem_of_fmap in HX as (b & -> & Hb).
      by apply elem_of_filter in Hm as [Hm _].
  - subst ct'. rewrite lookup_insert_ne in Hk by done.
    unfold still_abstract.
    rewrite (class_stmt_getattr_old ct cd _ c m Hwf Hstmt) by by eexists.
    by apply (Hcomplete c k m).
Qed.

Lemma exec_module_abstracts_are_abstract ct (cds : list (classdef world)) ct' :
  well_formed ct -> abstracts_are_abstract ct ->
  exec_module ct cds = inr ct' -> abstracts_are_abstract ct'.
Proof.
  revert ct. induction cds as [| cd cds IH]; intros ct Hwf Hcomplete Hexec; cbn in Hexec.
  - by injection Hexec as <-.
  - destruct (class_stmt ct cd) as [e | ct1] eqn:Hstmt; [done |].
    apply (IH ct1); [| | done].
    + by apply (class_stmt_well_formed ct cd).
    + by apply (class_stmt_abstracts_are_abstract ct cd).
Qed.

(** With one base, of metaclass [ABCMeta]: the names the body declares
    abstract, and those of the base the body does not define. *)
Lemma one_base_abstractmethods ct cd ct' b kb :
  well_formed ct -> abstracts_are_abstract ct ->
  class_stmt ct cd = inr ct' ->
  cd_bases cd = [b] -> ct !! b = Some kb -> cls_abcmeta kb = true ->
  abstractmethods_of ct' (cd_name cd) =
  abstract_names (namespace (cd_body cd)) ∪
  (cls_abstractmethods kb ∖ dom (namespace (cd_body cd))).
Proof.
  intros Hwf Hcomplete Hstmt Hbases Hkb Habc.
  rewrite (class_stmt_abstractmethods _ _ _ Hstmt). rewrite Hbases.
  cbn [effective_bases fmap list_fmap union_list foldr].
  rewrite (derived_abcmeta_base ct (cd_abcmeta cd) [b] b kb (list_elem_of_here _ _) Hkb Habc).
  unfold abstractmethods_of at 1. rewrite Hkb.
  apply set_eq. intros m.
  rewrite !elem_of_union, elem_of_filter, elem_of_difference, elem_of_dom.
  unfold still_abstract.
  destruct (namespace (cd_body cd) !! m) as [f |] eqn:Hm.
  - rewrite (class_stmt_getattr_own _ _ _ _ _ Hstmt Hm). split.
    + intros [Hin | [[Hf _] | Hin]]; [by left | | by apply not_elem_of_empty in Hin].
      left. by apply (abstract_names_elem_of _ _ f).
    + intros [Hin | [_ Hno]]; [by left |]. exfalso. apply Hno. by eexists.
  - rewrite (class_stmt_getattr_inherited ct cd ct' b m Hwf Hstmt Hbases Hm). split.
    + intros [Hin | [[_ Hin] | Hin]]; [by left | | by apply not_elem_of_empty in Hin].
      right. split; [done |]. by intros [f Hf].
    + intros [Hin | [Hin _]]; [by left |]. right. left. split; [| done].
      by apply (Hcomplete b kb m).
Qed.
End Abstractness.

(** ** Subclasses in a program *)

(** A program that runs base.py and later the class statement [cd]: the
    table before [cd], the table after it, and what holds of them. *)
Lemma program_split {world : Type} (pre mid post : list (classdef world))
    (cd : classdef world) (ct : class_table world) :
  exec_module builtins (pre ++ base_py ++ mid ++ cd :: post) = inr ct ->
  exists ct1 ct2,
    class_stmt ct1 cd = inr ct2 /\
    well_formed ct1 /\ well_formed ct2 /\ abstracts_are_abstract ct1 /\
    base_classes ⊆ ct1 /\ ct2 ⊆ ct /\ is_Some (ct2 !! cd_name cd).
Proof.
  intros Hexec.
  replace (pre ++ base_py ++ mid ++ cd :: post)
    with ((pre ++ base_py ++ mid) ++ cd :: post) in Hexec by by rewrite <- !app_assoc.
  apply exec_module_app in Hexec as (ct1 & Hbefore & Hexec). cbn in Hexec.
  destruct (class_stmt ct1 cd) as [e | ct2] eqn:Hstmt; [done |].
  exists ct1, ct2.
  pose proof (exec_module_well_formed _ _ _ well_formed_builtins Hbefore) as Hwf1.
  split; [done |]. split; [exact Hwf1 |].
  split; [by apply (class_stmt_well_formed ct1 cd) |].
  split.
  { by apply (exec_module_abstracts_are_abstract builtins (pre ++ base_py ++ mid));
      [apply well_formed_builtins | apply abstracts_are_abstract_builtins |]. }
  split; [by apply (base_classes_in_program pre mid) |].
  split; [by apply (exec_module_extends ct2 post) |].
  destruct (class_stmt_inv _ _ _ Hstmt) as (r & _ & _ & _ & ->).
  rewrite lookup_insert_eq. by eexists.
Qed.

Lemma base_classes_abcmeta {world : Type} c :
  c ∈ class_names_of_base_py ->
  from_option cls_abcmeta false (@base_classes world !! c) = true.
Proof.
  intros Hc. unfold class_names_of_base_py in Hc.
  repeat (apply elem_of_cons in Hc as [-> | Hc]);
    [| | | | | by apply not_elem_of_nil in Hc]; vm_compute; reflexivity.
Qed.

Lemma subclass_abstractmethods_formula {world : Type}
    (pre mid post : list (classdef world)) (cd : classdef world) (b : ident)
    (ct : class_table world) :
  exec_module builtins (pre ++ base_py ++ mid ++ cd :: post) = inr ct ->
  cd_bases cd = [b] ->
  b ∈ class_names_of_base_py ->
  abstractmethods_of ct (cd_name cd) =
  abstract_names (namespace (cd_body cd)) ∪
  (abstractmethods_of (@base_classes world) b ∖ dom (namespace (cd_body cd))).
Proof.
  intros Hexec Hbases Hb.
  destruct (program_split pre mid post cd ct Hexec)
    as (ct1 & ct2 & Hstmt & Hwf1 & Hwf2 & Hcomplete & Hsub & Hsub2 & Hnew).
  destruct (base_classes_defined (world := world) b Hb) as [kb Hkb].
  pose proof (base_classes_abcmeta (world := world) b Hb) as Habc.
  rewrite Hkb in Habc. cbn in Habc.
  rewrite (abstractmethods_of_mono ct2 ct (cd_name cd) Hsub2 Hnew).
  rewrite (one_base_abstractmethods ct1 cd ct2 b kb Hwf1 Hcomplete Hstmt Hbases
             (lookup_weaken _ _ _ _ Hkb Hsub) Habc).
  unfold abstractmethods_of. by rewrite Hkb.
Qed.

Lemma one_base_mro {world : Type} (ct : class_table world) (cd : classdef world)
    (ct' : class_table world) (b : ident) :
  well_formed ct -> class_stmt ct cd = inr ct' -> cd_bases cd = [b] ->
  mro_of ct' (cd_name cd) = cd_name cd :: mro_of ct b.
Proof.
  intros Hwf Hstmt Hbases.
  destruct (class_stmt_inv _ _ _ Hstmt) as (r & Hfresh & Hexist & Hmerge & ->).
  rewrite Hbases in Hexist, Hmerge. cbn [effective_bases fmap list_fmap app] in Hexist, Hmerge.
  destruct (Hexist b (list_elem_of_here _ _)) as [kb Hkb].
  unfold mro_of in *. rewrite lookup_insert_eq. rewrite Hkb in *. cbn [cls_mro new_class].
  pose proof (wf_head ct Hwf b kb Hkb) as Hhead.
  pose proof (wf_nodup ct Hwf b kb Hkb) as Hnodup.
  destruct (cls_mro kb) as [| b' t]; [done |]. injection Hhead as ->.
  rewrite c3_merge_one_base in Hmerge by done. by injection Hmerge as <-.
Qed.




(** X7.  A class written [class C(B)] after base.py, with [B] one of the
    five classes, has as abstract methods the names its body declares
    abstract and the abstract methods of [B] that its body does not define:
    whatever else the program holds. *)
Theorem subclass_abstractmethods {world : Type}
    (pre mid post : list (classdef world)) (cd : classdef world) (b : ident)
    (ct : class_table world) :
  exec_module builtins (pre ++ base_py ++ mid ++ cd :: post) = inr ct ->
  cd_bases cd = [b] ->
  b ∈ class_names_of_base_py ->
  abstractmethods_of ct (cd_name cd) =
  abstract_names (namespace (cd_body cd)) ∪
  (abstractmethods_of (@base_classes world) b ∖ dom (namespace (cd_body cd))).
Proof. apply subclass_abstractmethods_formula. Qed.


Lemma subclass_abstractmethods_witness :
  abstractmethods_of Demo2.classes "BareLogger" = {[ "__init__" ]}.
Proof.
  transitivity (abstract_names (namespace (cd_body Demo2.bare_logger)) ∪
                (abstractmethods_of (@base_classes Demo.world) "Logger" ∖
                   dom (namespace (cd_body Demo2.bare_logger)))).
  - apply (subclass_abstractmethods Demo.seal [Demo2.flaky_logger]
             [Demo2.flaky_timer; Demo2.mixed; Demo2.reversed] Demo2.bare_logger "Logger"
             Demo2.classes demo2_classes_run eq_refl).
    unfold class_names_of_base_py. do 4 apply list_elem_of_further. apply list_elem_of_here.
  - vm_compute. reflexivity.
Defined.


(** ** Constructing a concrete subclass *)






(** ** A class with two of the components as bases *)

Section TwoBases.
Context {world : Type}.
Implicit Types (ct : class_table world) (cd : classdef world).

(** What a new class does not define itself it takes from the merge of its
    bases' linearisations, looked up in the classes that were there. *)
Lemma class_stmt_getattr_merged ct cd ct' m :
  well_formed ct -> class_stmt ct cd = inr ct' ->
  namespace (cd_body cd) !! m = None ->
  let bases := effective_bases (cd_bases cd) in
  let seqs := (mro_of ct <$> bases) ++ [bases] in
  exists r, c3_merge (c3_fuel seqs) seqs = Some r /\
            getattr ct' (cd_name cd) m = mro_lookup ct r m.
Proof.
  intros Hwf Hstmt Hm bases seqs.
  destruct (class_stmt_inv _ _ _ Hstmt) as (r & Hfresh & Hexist & Hmerge & ->).
  exists r. split; [done |].
  unfold getattr, mro_of. rewrite lookup_insert_eq.
  cbn [cls_mro new_class mro_lookup]. rewrite dict_lookup_insert_eq.
  cbn [cls_dict new_class]. rewrite Hm.
  apply mro_lookup_insert_fresh. intros Hin.
  destruct (merged_from_base ct _ _ r (cd_name cd) Hwf Hexist Hmerge Hin)
    as (b & kb & _ & Hkb & Hx).
  destruct (wf_closed ct Hwf b kb (cd_name cd) Hkb Hx) as [kn Hkn]. congruence.
Qed.

Lemma two_bases_call ct cd ct' (b1 b2 : ident) (call : pyfunction world) :
  well_formed ct -> base_classes ⊆ ct -> class_stmt ct cd = inr ct' ->
  cd_bases cd = [b1; b2] ->
  (b1, b2, call) ∈ [("ExperimentComponent", "RunComponent", ExperimentComponent.__call__);
                    ("RunComponent", "ExperimentComponent", RunComponent.__call__)] ->
  namespace (cd_body cd) !! "__call__" = None ->
  getattr ct' (cd_name cd) "__call__" = Some call.
Proof.
  intros Hwf Hsub Hstmt Hbases Hb Hnocall.
  destruct (class_stmt_getattr_merged ct cd ct' "__call__" Hwf Hstmt Hnocall)
    as (r & Hmerge & ->).
  rewrite Hbases in Hmerge. cbn [effective_bases fmap list_fmap] in Hmerge.
  assert (Hec : is_Some (@base_classes world !! "ExperimentComponent")).
  { apply base_classes_defined. unfold class_names_of_base_py. rewrite !elem_of_cons. tauto. }
  assert (Hrc : is_Some (@base_classes world !! "RunComponent")).
  { apply base_classes_defined. unfold class_names_of_base_py. rewrite !elem_of_cons. tauto. }
  assert (Hmro_ec : mro_of ct "ExperimentComponent" =
                    ["ExperimentComponent"; "Component"; "object"]).
  { rewrite (mro_of_mono base_classes ct _ Hsub Hec). vm_compute. reflexivity. }
  assert (Hmro_rc : mro_of ct "RunComponent" = ["RunComponent"; "Component"; "object"]).
  { rewrite (mro_of_mono base_classes ct _ Hsub Hrc). vm_compute. reflexivity. }
  repeat (apply elem_of_cons in Hb as [[= -> -> ->] | Hb]);
    [| | by apply not_elem_of_nil in Hb];
    rewrite Hmro_ec, Hmro_rc in Hmerge; vm_compute in Hmerge; injection Hmerge as <-;
    cbn [mro_lookup].
  - rewrite (dict_lookup_mono base_classes ct _ _ Hsub Hec). vm_compute. reflexivity.
  - rewrite (dict_lookup_mono base_classes ct _ _ Hsub Hrc). vm_compute. reflexivity.
Qed.
End TwoBases.

(** X11.  A class written [class C(ExperimentComponent, RunComponent)]
    after base.py, which does not go through [HybridComponent] and has no
    [__call__] of its own, takes the [__call__] of its first base: [c(x)]
    is [c._call_on_experiment(x)] for every [x], a [Run] too.  With the
    bases the other way round, [c(x)] is [c._call_on_run(x)] for every
    [x]. *)
Theorem first_base_decides_call {world : Type}
    (pre mid post : list (classdef world)) (cd : classdef world)
    (b1 b2 hook : ident) (impl : implementation world)
    (ct : class_table world) (self : pyobj) :
  exec_module builtins (pre ++ base_py ++ mid ++ cd :: post) = inr ct ->
  cd_bases cd = [b1; b2] ->
  (b1, b2, hook) ∈ [("ExperimentComponent", "RunComponent", "_call_on_experiment");
                    ("RunComponent", "ExperimentComponent", "_call_on_run")] ->
  namespace (cd_body cd) !! "__call__" = None ->
  namespace (cd_body cd) !! hook = Some (Foreign impl) ->
  type_of self = cd_name cd ->
  forall (x : pyobj) (st : state world) (n : nat),
    invoke ct (S (S n)) self (one_arg x) st = hook_call impl self hook (one_arg x) st.
Proof.
  intros Hexec Hbases Hb Hnocall Hhook Hself x st n.
  destruct (program_split pre mid post cd ct Hexec)
    as (ct1 & ct2 & Hstmt & Hwf1 & Hwf2 & _ & Hsub & Hsub2 & Hnew).
  assert (Hhook' : getattr ct (type_of self) hook = Some (Foreign impl)).
  { rewrite Hself, (getattr_mono ct2 ct _ _ Hwf2 Hsub2 Hnew).
    by apply (class_stmt_getattr_own ct1 cd ct2). }
  repeat (apply elem_of_cons in Hb as [[= -> -> ->] | Hb]);
    [| | by apply not_elem_of_nil in Hb].
  - apply experiment_component_call; [| done].
    rewrite Hself, (getattr_mono ct2 ct _ _ Hwf2 Hsub2 Hnew).
    apply (two_bases_call ct1 cd ct2 "ExperimentComponent" "RunComponent"); try done.
    apply list_elem_of_here.
  - apply run_component_call; [| done].
    rewrite Hself, (getattr_mono ct2 ct _ _ Hwf2 Hsub2 Hnew).
    apply (two_bases_call ct1 cd ct2 "RunComponent" "ExperimentComponent"); try done.
    apply list_elem_of_further, list_elem_of_here.
Qed.

Lemma first_base_decides_call_witness :
  invoke Demo2.classes 2 (PyObject "Mixed" 7) (one_arg Demo.a_run) Demo.start =
  (Returned PyNone,
   State ["mixed: experiment"]
     [Called (PyObject "Mixed" 7) "_call_on_experiment" (one_arg Demo.a_run)] 0).
Proof.
  apply (first_base_decides_call Demo.seal
           [Demo2.flaky_logger; Demo2.bare_logger; Demo2.flaky_timer] [Demo2.reversed]
           Demo2.mixed "ExperimentComponent" "RunComponent" "_call_on_experiment"
           (Demo.writes "mixed: experiment") Demo2.classes (PyObject "Mixed" 7)
           demo2_classes_run eq_refl).
  - apply list_elem_of_here.
  - vm_compute. reflexivity.
  - vm_compute. reflexivity.
  - reflexivity.
Defined.

(** ** The place of a subclass in the hierarchy *)

Lemma base_classes_are_components {world : Type} (b : ident) :
  b ∈ class_names_of_base_py -> "Component" ∈ mro_of (@base_classes world) b.
Proof.
  intros Hb. unfold class_names_of_base_py in Hb.
  repeat (apply elem_of_cons in Hb as [-> | Hb]);
    [| | | | | by apply not_elem_of_nil in Hb];
    apply (bool_decide_unpack _); vm_compute; exact I.
Qed.

(** X12.  A class written [class C(B)] after base.py, with [B] a class of
    base.py, has the linearisation [C] followed by that of [B], whatever
    else the program defines; so every instance of [C] is an instance of
    [B] and of [Component]. *)
Theorem subclass_is_a_component {world : Type}
    (pre mid post : list (classdef world)) (cd : classdef world) (b : ident)
    (ct : class_table world) :
  exec_module builtins (pre ++ base_py ++ mid ++ cd :: post) = inr ct ->
  cd_bases cd = [b] ->
  b ∈ class_names_of_base_py ->
  mro_of ct (cd_name cd) = cd_name cd :: mro_of (@base_classes world) b /\
  forall (a : nat),
    is_instance ct (PyObject (cd_name cd) a) b = true /\
    is_instance ct (PyObject (cd_name cd) a) "Component" = true.
Proof.
  intros Hexec Hbases Hb.
  destruct (program_split pre mid post cd ct Hexec)
    as (ct1 & ct2 & Hstmt & Hwf1 & Hwf2 & _ & Hsub & Hsub2 & Hnew).
  pose proof (base_classes_defined (world := world) b Hb) as Hdef.
  assert (Hmro : mro_of ct (cd_name cd) = cd_name cd :: mro_of (@base_classes world) b).
  { rewrite (mro_of_mono ct2 ct _ Hsub2 Hnew), (one_base_mro ct1 cd ct2 b Hwf1 Hstmt Hbases).
    by rewrite (mro_of_mono base_classes ct1 b Hsub Hdef). }
  split; [done |]. intros a. unfold is_instance, issubclass. cbn [type_of]. rewrite Hmro.
  split; apply bool_decide_eq_true_2, list_elem_of_further.
  - destruct Hdef as [kb Hkb]. unfold mro_of. rewrite Hkb.
    apply head_Some_elem_of, (wf_head _ well_formed_base_classes b kb Hkb).
  - by apply base_classes_are_components.
Qed.

Lemma subclass_is_a_component_witness :
  mro_of Demo2.classes "FlakyTimer" =
    "FlakyTimer" :: mro_of (@base_classes Demo.world) "RunComponent" /\
  forall (a : nat),
    is_instance Demo2.classes (PyObject "FlakyTimer" a) "RunComponent" = true /\
    is_instance Demo2.classes (PyObject "FlakyTimer" a) "Component" = true.
Proof.
  apply (subclass_is_a_component Demo.seal [Demo2.flaky_logger; Demo2.bare_logger]
           [Demo2.mixed; Demo2.reversed] Demo2.flaky_timer "RunComponent"
           Demo2.classes demo2_classes_run eq_refl).
  apply (bool_decide_unpack _). vm_compute. exact I.
Defined.

(** ** Bases in an order that cannot be linearised *)

Lemma exec_module_app_run {world : Type} (ct : class_table world)
    (cds1 cds2 : list (classdef world)) (ct1 : class_table world) :
  exec_module ct cds1 = inr ct1 ->
  exec_module ct (cds1 ++ cds2) = exec_module ct1 cds2.
Proof.
  revert ct. induction cds1 as [| cd cds1 IH]; intros ct Hexec; cbn in *.
  - by injection Hexec as <-.
  - destruct (class_stmt ct cd) as [e | ct'] eqn:Hstmt; [done |]. by apply IH.
Qed.

(** X13.  [Component] cannot be listed before one of its own subclasses:
    a statement [class C(Component, B)] with [B] one of the other classes
    of base.py is refused with a [TypeError], and the module that holds it
    stops there. *)
Theorem component_before_subclass_is_refused {world : Type}
    (pre mid post : list (classdef world)) (cd : classdef world) (b : ident)
    (ct1 : class_table world) :
  exec_module builtins (pre ++ base_py ++ mid) = inr ct1 ->
  ct1 !! cd_name cd = None ->
  cd_bases cd = ["Component"; b] ->
  b ∈ ["ExperimentComponent"; "RunComponent"; "HybridComponent"; "Logger"] ->
  exec_module builtins (pre ++ base_py ++ mid ++ cd :: post) =
  inl (TypeError "Cannot create a consistent method resolution order (MRO)").
Proof.
  intros Hexec Hfresh Hbases Hb.
  pose proof (base_classes_in_program pre mid ct1 Hexec) as Hsub.
  assert (Hb' : b ∈ class_names_of_base_py).
  { unfold class_names_of_base_py. apply elem_of_cons. by right. }
  assert (Hc' : "Component" ∈ class_names_of_base_py) by apply list_elem_of_here.
  pose proof (base_classes_defined (world := world) b Hb') as Hdefb.
  pose proof (base_classes_defined (world := world) "Component" Hc') as Hdefc.
  assert (Hlin : linearise ct1 (cd_name cd) ["Component"; b] = None).
  { unfold linearise. cbn [fmap list_fmap].
    rewrite (mro_of_mono base_classes ct1 _ Hsub Hdefb).
    rewrite (mro_of_mono base_classes ct1 _ Hsub Hdefc).
    clear Hdefb Hb'.
    repeat (apply elem_of_cons in Hb as [-> | Hb]);
      [| | | | by apply not_elem_of_nil in Hb]; vm_compute; reflexivity. }
  replace (pre ++ base_py ++ mid ++ cd :: post)
    with ((pre ++ base_py ++ mid) ++ cd :: post) by by rewrite <- !app_assoc.
  rewrite (exec_module_app_run _ _ _ _ Hexec). cbn [exec_module].
  unfold class_stmt. rewrite Hfresh, Hbases. cbn [effective_bases List.find].
  destruct Hdefb as [kb Hkb]. destruct Hdefc as [kc Hkc].
  pose proof (lookup_weaken _ _ _ _ Hkb Hsub) as Hkb1.
  pose proof (lookup_weaken _ _ _ _ Hkc Hsub) as Hkc1.
  rewrite !bool_decide_eq_false_2 by congruence.
  by rewrite Hlin.
Qed.

Lemma component_before_subclass_is_refused_witness :
  exec_module builtins
    ([] ++ base_py ++ [] ++
     ClassDef (world := Demo.world) "Plain" ["Component"; "Logger"] false [] :: []) =
  inl (TypeError "Cannot create a consistent method resolution order (MRO)").
Proof.
  apply (component_before_subclass_is_refused [] [] []
           (ClassDef (world := Demo.world) "Plain" ["Component"; "Logger"] false [])
           "Logger" base_classes base_classes_run).
  - vm_compute. reflexivity.
  - reflexivity.
  - do 3 apply list_elem_of_further. apply list_elem_of_here.
Defined.
